(** * The multibagger scoring engine of [score.py]

    A shallow embedding of [multibagger_score_two_dim] and of its inner
    helper [get_val], followed by the properties of the scoring engine.

    Errors.  The two operations of the source that can raise on its inputs,
    [np.isnan] and the division of line 91, return in an error monad, and
    so do the functions that call them.

    Numbers.  Python's [float] is IEEE 754 binary64, and so is Rocq's
    primitive [float]: comparisons with NaN are false, [inf] behaves as in
    Python, and every product and quotient is rounded as Python rounds it.
    The integer literals of the source (the scores 0, 2, 3, 4, 5, the
    thresholds, the default 0) are small integers, which binary64 holds
    exactly and which Python compares and combines with a float by value;
    they are written as floats here.  [len(factor_scores) * 5] stays an
    integer, as in the source.  The metrics are floats or [None] in the
    first part; [AnyNumber] has them as floats, Python ints of any size or
    [None], with the [TypeError] of [np.isnan] on an int beyond 64 bits.

    Dictionaries.  A Python [dict] keeps its keys in insertion order and
    [sum(d.values())] adds in that order, so a dictionary is an association
    list in insertion order, and assigning to a key that is already there
    replaces its value in place. *)

From Stdlib Require Import Floats ZArith List String Bool Lia.
Import ListNotations.

Set Warnings "-inexact-float".

Local Open Scope string_scope.
Local Open Scope list_scope.

(** ** Python dictionaries with string keys *)

Definition dict (V : Type) : Type := list (string * V).

Section Dict.
Context {V : Type}.

(** [d.get(k)]: the value under [k], [None] when [k] is not a key. *)
Fixpoint dict_get (k : string) (d : dict V) : option V :=
  match d with
  | [] => None
  | (k', v) :: rest => if String.eqb k k' then Some v else dict_get k rest
  end.

(** [d[k] = v]: replaces the value of an existing key where it stands,
    appends a new key at the end. *)
Fixpoint dict_set (k : string) (v : V) (d : dict V) : dict V :=
  match d with
  | [] => [(k, v)]
  | (k', v') :: rest =>
      if String.eqb k k' then (k, v) :: rest else (k', v') :: dict_set k v rest
  end.

Definition dict_keys (d : dict V) : list string := map fst d.
Definition dict_values (d : dict V) : list V := map snd d.
Definition dict_items (d : dict V) : list (string * V) := d.
Definition len (d : dict V) : Z := Z.of_nat (List.length d).

(** [k in d] *)
Definition dict_mem (k : string) (d : dict V) : bool :=
  existsb (String.eqb k) (dict_keys d).

(** The keys of a dictionary are pairwise distinct. *)
Definition dict_wf (d : dict V) : Prop := NoDup (dict_keys d).
End Dict.

(** ** Exceptions *)

Inductive exn : Type :=
| TypeError
| ZeroDivisionError.

Inductive result (A : Type) : Type :=
| Ok (a : A)
| Raise (e : exn).
Arguments Ok {A} a.
Arguments Raise {A} e.

Definition bind {A B : Type} (m : result A) (f : A -> result B) : result B :=
  match m with
  | Ok a => f a
  | Raise e => Raise e
  end.

Notation "x <- m ;; k" := (bind m (fun x => k))
  (at level 61, m at next level, right associativity).

(** ** Python numbers *)

Local Open Scope float_scope.

(** [a > b] on floats. *)
Definition gtb (a b : float) : bool := b <? a.
Infix ">?" := gtb (at level 70, no associativity) : float_scope.

(** [np.inf] *)
Definition np_inf : float := infinity.

(** [float(n)] for an integer [n], rounded to nearest even. *)
Definition float_of_int (n : Z) : float :=
  SF2Prim (binary_normalize prec emax n 0 false).

(** [a / n] for a float [a] and an integer [n]. *)
Definition py_truediv (a : float) (n : Z) : result float :=
  if (n =? 0)%Z then Raise ZeroDivisionError else Ok (a / float_of_int n).

(** [sum(xs)]: starts from 0 and adds from left to right, as CPython does
    up to 3.11.  From 3.12 on [sum] also carries a correction term for
    floats, which stays zero as long as every partial sum is exact: on
    scores that are whole numbers the two give the same exact sum, and the
    statements about totals below are about such scores. *)
Definition py_sum (xs : list float) : float := fold_left PrimFloat.add xs 0.

(** ** The input *)

(** A metric is a float or [None]; [np.nan] is the float NaN. *)
Definition metric : Type := option float.

(** [np.isnan(val)]: a [TypeError] on [None]. *)
Definition np_isnan (val : metric) : result bool :=
  match val with
  | Some x => Ok (PrimFloat.is_nan x)
  | None => Raise TypeError
  end.

(** The argument [stock]: a dictionary in which the keys ['quantitative'] and
    ['qualitative'] may each be missing. *)
Record stock : Type := mkStock {
  stock_quantitative : option (dict metric);
  stock_qualitative : option (dict float)
}.

(** [stock.get(key, {})] *)
Definition get_or_empty {V : Type} (o : option (dict V)) : dict V :=
  match o with
  | Some d => d
  | None => []
  end.

(** ** [get_val] (score.py, lines 12-14) *)

Definition get_val (quantitative : dict metric) (key : string) (default : float)
  : result float :=
  let val := match dict_get key quantitative with
             | Some v => v
             | None => None
             end in
  match val with
  | None => Ok default                      (* val is None *)
  | Some x =>
      isnan <- np_isnan val ;;              (* or np.isnan(val) *)
      Ok (if isnan then default else x)
  end.

(** ** The step function of each factor (score.py, lines 17-80)

    Each function is the conditional expression on the right of one
    [factor_scores[...] = ...] line, over the variable that line reads. *)

Definition market_cap_score (mc : float) : float :=
  if mc <? 100e9 then 5 else if mc <? 500e9 then 4
  else if mc <? 2000e9 then 3 else if mc <? 5000e9 then 2 else 0.

Definition stock_price_score (sp : float) : float :=
  if sp <? 500 then 5 else if sp <? 1000 then 4 else if sp <? 2000 then 3 else 0.

Definition eps_growth_5y_score (eps_growth : float) : float :=
  if eps_growth >? 20 then 5 else if eps_growth >? 10 then 3 else 0.

Definition roe_score (roe : float) : float :=
  if roe >? 15 then 5 else if roe >? 10 then 3 else 0.

Definition roce_score (roce : float) : float :=
  if roce >? 15 then 5 else if roce >? 10 then 3 else 0.

Definition operating_margin_score (op_margin : float) : float :=
  if op_margin >? 20 then 5 else if op_margin >? 10 then 3 else 0.

Definition net_margin_score (net_margin : float) : float :=
  if net_margin >? 15 then 5 else if net_margin >? 7 then 3 else 0.

Definition de_ratio_score (de_ratio : float) : float :=
  if de_ratio <? 0.5 then 5 else if de_ratio <? 1 then 3 else 0.

Definition interest_coverage_score (interest_coverage : float) : float :=
  if interest_coverage >? 3 then 5 else if interest_coverage >? 1.5 then 3 else 0.

Definition current_ratio_score (current_ratio : float) : float :=
  if current_ratio >? 1.5 then 5 else if current_ratio >? 1.2 then 3 else 0.

Definition free_cash_flow_score (free_cash_flow : float) : float :=
  if free_cash_flow >? 0 then 5 else 0.

Definition revenue_growth_5y_score (revenue_growth : float) : float :=
  if revenue_growth >? 15 then 5 else if revenue_growth >? 10 then 3 else 0.

Definition profit_growth_5y_score (profit_growth : float) : float :=
  if profit_growth >? 20 then 5 else if profit_growth >? 10 then 3 else 0.

Definition cash_flow_growth_score (cash_flow_growth : float) : float :=
  if cash_flow_growth >? 15 then 5 else if cash_flow_growth >? 10 then 3 else 0.

Definition pe_ratio_score (pe : float) : float :=
  if pe <? 15 then 5 else if pe <? 25 then 3 else 0.

Definition peg_ratio_score (peg : float) : float :=
  if peg <? 1 then 5 else if peg <? 2 then 3 else 0.

Definition pb_ratio_score (pb : float) : float :=
  if pb <? 1.5 then 5 else if pb <? 2.5 then 3 else 0.

Definition ev_ebitda_score (ev_ebitda : float) : float :=
  if ev_ebitda <? 10 then 5 else if ev_ebitda <? 15 then 3 else 0.

Definition liquidity_score (liquidity : float) : float :=
  if liquidity >? 100000 then 5 else if liquidity >? 50000 then 3 else 0.

Definition promoter_holding_score (promoter_holding : float) : float :=
  if promoter_holding >? 50 then 5 else if promoter_holding >? 30 then 3 else 0.

Definition promoter_holding_growth_score (promoter_holding_growth : float) : float :=
  if promoter_holding_growth >? 0 then 5
  else if promoter_holding_growth =? 0 then 3 else 0.

(** ** The quantitative part (score.py, lines 6-80) *)

Definition quantitative_scores (quantitative : dict metric) : result (dict float) :=
  let factor_scores : dict float := [] in
  mc <- get_val quantitative "market_cap" 0 ;;
  let factor_scores := dict_set "market_cap" (market_cap_score mc) factor_scores in
  sp <- get_val quantitative "stock_price" 0 ;;
  let factor_scores := dict_set "stock_price" (stock_price_score sp) factor_scores in
  eps_growth <- (v <- get_val quantitative "eps_growth_5y" 0 ;; Ok (v * 100)) ;;
  let factor_scores :=
    dict_set "eps_growth_5y" (eps_growth_5y_score eps_growth) factor_scores in
  roe <- (v <- get_val quantitative "roe" 0 ;; Ok (v * 100)) ;;
  let factor_scores := dict_set "roe" (roe_score roe) factor_scores in
  roce <- (v <- get_val quantitative "roce" 0 ;; Ok (v * 100)) ;;
  let factor_scores := dict_set "roce" (roce_score roce) factor_scores in
  op_margin <- (v <- get_val quantitative "operating_margin" 0 ;; Ok (v * 100)) ;;
  let factor_scores :=
    dict_set "operating_margin" (operating_margin_score op_margin) factor_scores in
  net_margin <- (v <- get_val quantitative "net_margin" 0 ;; Ok (v * 100)) ;;
  let factor_scores := dict_set "net_margin" (net_margin_score net_margin) factor_scores in
  de_ratio <- get_val quantitative "de_ratio" np_inf ;;
  let factor_scores := dict_set "de_ratio" (de_ratio_score de_ratio) factor_scores in
  interest_coverage <- get_val quantitative "interest_coverage" 0 ;;
  let factor_scores :=
    dict_set "interest_coverage" (interest_coverage_score interest_coverage) factor_scores in
  current_ratio <- get_val quantitative "current_ratio" 0 ;;
  let factor_scores :=
    dict_set "current_ratio" (current_ratio_score current_ratio) factor_scores in
  free_cash_flow <- get_val quantitative "free_cash_flow" 0 ;;
  let factor_scores :=
    dict_set "free_cash_flow" (free_cash_flow_score free_cash_flow) factor_scores in
  revenue_growth <- (v <- get_val quantitative "revenue_growth_5y" 0 ;; Ok (v * 100)) ;;
  let factor_scores :=
    dict_set "revenue_growth_5y" (revenue_growth_5y_score revenue_growth) factor_scores in
  profit_growth <- (v <- get_val quantitative "profit_growth_5y" 0 ;; Ok (v * 100)) ;;
  let factor_scores :=
    dict_set "profit_growth_5y" (profit_growth_5y_score profit_growth) factor_scores in
  cash_flow_growth <- get_val quantitative "cash_flow_growth" 0 ;;
  let factor_scores :=
    dict_set "cash_flow_growth" (cash_flow_growth_score cash_flow_growth) factor_scores in
  pe <- get_val quantitative "pe_ratio" np_inf ;;
  let factor_scores := dict_set "pe_ratio" (pe_ratio_score pe) factor_scores in
  peg <- get_val quantitative "peg_ratio" np_inf ;;
  let factor_scores := dict_set "peg_ratio" (peg_ratio_score peg) factor_scores in
  pb <- get_val quantitative "pb_ratio" np_inf ;;
  let factor_scores := dict_set "pb_ratio" (pb_ratio_score pb) factor_scores in
  ev_ebitda <- get_val quantitative "ev_ebitda" np_inf ;;
  let factor_scores := dict_set "ev_ebitda" (ev_ebitda_score ev_ebitda) factor_scores in
  liquidity <- get_val quantitative "liquidity" 0 ;;
  let factor_scores := dict_set "liquidity" (liquidity_score liquidity) factor_scores in
  promoter_holding <- get_val quantitative "promoter_holding" 0 ;;
  let factor_scores :=
    dict_set "promoter_holding" (promoter_holding_score promoter_holding) factor_scores in
  promoter_holding_growth <- get_val quantitative "promoter_holding_growth" 0 ;;
  let factor_scores :=
    dict_set "promoter_holding_growth"
      (promoter_holding_growth_score promoter_holding_growth) factor_scores in
  Ok factor_scores.

(** ** The qualitative part (score.py, lines 83-86) *)

Definition add_qualitative (qualitative : dict float) (factor_scores : dict float)
  : dict float :=
  fold_left (fun fs item => dict_set (fst item) (snd item) fs)
    (dict_items qualitative) factor_scores.

(** ** The total (score.py, lines 88-92) *)

Definition max_possible_score (factor_scores : dict float) : Z :=
  (len factor_scores * 5)%Z.

Definition aggregate (factor_scores : dict float) : result (float * float * dict float) :=
  let total_score := py_sum (dict_values factor_scores) in
  let max_possible_score := max_possible_score factor_scores in
  percentage_score <-
    (if (max_possible_score >? 0)%Z
     then (ratio <- py_truediv total_score max_possible_score ;; Ok (ratio * 100))
     else Ok 0) ;;
  Ok (total_score, percentage_score, factor_scores).

(** ** [multibagger_score_two_dim] (score.py, lines 3-92) *)

Definition quantitative_of (s : stock) : dict metric :=
  get_or_empty (stock_quantitative s).

Definition qualitative_of (s : stock) : dict float :=
  get_or_empty (stock_qualitative s).

Definition multibagger_score_two_dim (s : stock) : result (float * float * dict float) :=
  let quantitative := quantitative_of s in
  factor_scores <- quantitative_scores quantitative ;;
  let qualitative := qualitative_of s in
  let factor_scores := add_qualitative qualitative factor_scores in
  aggregate factor_scores.

(** ** The quantitative part as a table

    The same 21 assignments read as rows; [quantitative_scores_table] below
    shows that the straight-line code returns exactly these entries. *)

(** The names of the quantitative factors, in the order of lines 17-80. *)
Definition quantitative_factors : list string :=
  [ "market_cap"; "stock_price"; "eps_growth_5y"; "roe"; "roce";
    "operating_margin"; "net_margin"; "de_ratio"; "interest_coverage";
    "current_ratio"; "free_cash_flow"; "revenue_growth_5y"; "profit_growth_5y";
    "cash_flow_growth"; "pe_ratio"; "peg_ratio"; "pb_ratio"; "ev_ebitda";
    "liquidity"; "promoter_holding"; "promoter_holding_growth" ].

(** One row for each factor: the key and the default given to [get_val],
    whether the value read is multiplied by 100, and the step function. *)
Record factor : Type := mkFactor {
  factor_name : string;
  factor_default : float;
  factor_times_100 : bool;
  factor_step : float -> float
}.

Definition factor_table : list factor :=
  [ mkFactor "market_cap" 0 false market_cap_score;
    mkFactor "stock_price" 0 false stock_price_score;
    mkFactor "eps_growth_5y" 0 true eps_growth_5y_score;
    mkFactor "roe" 0 true roe_score;
    mkFactor "roce" 0 true roce_score;
    mkFactor "operating_margin" 0 true operating_margin_score;
    mkFactor "net_margin" 0 true net_margin_score;
    mkFactor "de_ratio" np_inf false de_ratio_score;
    mkFactor "interest_coverage" 0 false interest_coverage_score;
    mkFactor "current_ratio" 0 false current_ratio_score;
    mkFactor "free_cash_flow" 0 false free_cash_flow_score;
    mkFactor "revenue_growth_5y" 0 true revenue_growth_5y_score;
    mkFactor "profit_growth_5y" 0 true profit_growth_5y_score;
    mkFactor "cash_flow_growth" 0 false cash_flow_growth_score;
    mkFactor "pe_ratio" np_inf false pe_ratio_score;
    mkFactor "peg_ratio" np_inf false peg_ratio_score;
    mkFactor "pb_ratio" np_inf false pb_ratio_score;
    mkFactor "ev_ebitda" np_inf false ev_ebitda_score;
    mkFactor "liquidity" 0 false liquidity_score;
    mkFactor "promoter_holding" 0 false promoter_holding_score;
    mkFactor "promoter_holding_growth" 0 false promoter_holding_growth_score ].

(** The value of [get_val] when it returns. *)
Definition metric_value (quantitative : dict metric) (key : string) (default : float)
  : float :=
  match dict_get key quantitative with
  | Some (Some x) => if PrimFloat.is_nan x then default else x
  | Some None | None => default
  end.

(** The number a factor's step function is applied to. *)
Definition factor_input (quantitative : dict metric) (f : factor) : float :=
  let x := metric_value quantitative (factor_name f) (factor_default f) in
  if factor_times_100 f then x * 100 else x.

Definition factor_entry (quantitative : dict metric) (f : factor) : string * float :=
  (factor_name f, factor_step f (factor_input quantitative f)).

(** [factor_scores] after line 80. *)
Definition quantitative_entries (quantitative : dict metric) : dict float :=
  map (factor_entry quantitative) factor_table.

(** [factor_scores] when line 88 is reached. *)
Definition breakdown (s : stock) : dict float :=
  add_qualitative (qualitative_of s) (quantitative_entries (quantitative_of s)).

(** ** Metrics that are Python ints

    The fetchers store what the data source returns, and a market
    capitalisation or a volume comes as a Python int.  [AnyNumber] is the
    quantitative part of the function on metrics that are floats, ints of
    any size or [None].  The qualitative part and the total are those
    above. *)

Module AnyNumber.

Inductive pynum : Type :=
| PyFloat (x : float)
| PyInt (n : Z).

Definition metric : Type := option pynum.

(** numpy takes a Python int into an array of 64-bit integers, signed or
    unsigned, when it fits in one. *)
Definition fits_64_bits (n : Z) : bool := ((- 2 ^ 63 <=? n) && (n <? 2 ^ 64))%Z.

(** [np.isnan(val)]: [False] on an int that fits in 64 bits, a [TypeError]
    on a larger int and on [None]. *)
Definition np_isnan (val : metric) : result bool :=
  match val with
  | Some (PyFloat x) => Ok (PrimFloat.is_nan x)
  | Some (PyInt n) => if fits_64_bits n then Ok false else Raise TypeError
  | None => Raise TypeError
  end.

(** [get_val] (score.py, lines 12-14) *)
Definition get_val (quantitative : dict metric) (key : string) (default : pynum)
  : result pynum :=
  let val := match dict_get key quantitative with
             | Some v => v
             | None => None
             end in
  match val with
  | None => Ok default                      (* val is None *)
  | Some x =>
      isnan <- np_isnan val ;;              (* or np.isnan(val) *)
      Ok (if isnan then default else x)
  end.

(** The value of [get_val] when it returns. *)
Definition metric_value (quantitative : dict metric) (key : string) (default : pynum)
  : pynum :=
  match dict_get key quantitative with
  | Some (Some (PyFloat x)) => if PrimFloat.is_nan x then default else PyFloat x
  | Some (Some (PyInt n)) => PyInt n
  | Some None | None => default
  end.

(** Python compares an int and a float by value, without rounding the
    int: [None] when the float is NaN. *)
Definition compare_int_float (n : Z) (t : float) : option comparison :=
  match Prim2SF t with
  | S754_nan => None
  | S754_infinity s => Some (if s then Gt else Lt)
  | S754_zero _ => Some (n ?= 0)%Z
  | S754_finite s m e =>
      let v := cond_Zopp s (Z.pos m) in
      Some (if (0 <=? e)%Z then (n ?= v * 2 ^ e)%Z else (n * 2 ^ (- e) ?= v)%Z)
  end.

(** [a < t], [a > t] and [a == t] for a number [a] and a literal [t] of the
    source. *)
Definition py_lt (a : pynum) (t : float) : bool :=
  match a with
  | PyFloat x => x <? t
  | PyInt n => match compare_int_float n t with Some Lt => true | _ => false end
  end.

Definition py_gt (a : pynum) (t : float) : bool :=
  match a with
  | PyFloat x => x >? t
  | PyInt n => match compare_int_float n t with Some Gt => true | _ => false end
  end.

Definition py_eq (a : pynum) (t : float) : bool :=
  match a with
  | PyFloat x => x =? t
  | PyInt n => match compare_int_float n t with Some Eq => true | _ => false end
  end.

(** [a * 100]: exact on an int. *)
Definition py_mul_100 (a : pynum) : pynum :=
  match a with
  | PyFloat x => PyFloat (x * 100)
  | PyInt n => PyInt (n * 100)
  end.

(** The step functions of lines 17-80. *)

Definition market_cap_score (mc : pynum) : float :=
  if py_lt mc 100e9 then 5 else if py_lt mc 500e9 then 4
  else if py_lt mc 2000e9 then 3 else if py_lt mc 5000e9 then 2 else 0.

Definition stock_price_score (sp : pynum) : float :=
  if py_lt sp 500 then 5 else if py_lt sp 1000 then 4 else if py_lt sp 2000 then 3 else 0.

Definition eps_growth_5y_score (eps_growth : pynum) : float :=
  if py_gt eps_growth 20 then 5 else if py_gt eps_growth 10 then 3 else 0.

Definition roe_score (roe : pynum) : float :=
  if py_gt roe 15 then 5 else if py_gt roe 10 then 3 else 0.

Definition roce_score (roce : pynum) : float :=
  if py_gt roce 15 then 5 else if py_gt roce 10 then 3 else 0.

Definition operating_margin_score (op_margin : pynum) : float :=
  if py_gt op_margin 20 then 5 else if py_gt op_margin 10 then 3 else 0.

Definition net_margin_score (net_margin : pynum) : float :=
  if py_gt net_margin 15 then 5 else if py_gt net_margin 7 then 3 else 0.

Definition de_ratio_score (de_ratio : pynum) : float :=
  if py_lt de_ratio 0.5 then 5 else if py_lt de_ratio 1 then 3 else 0.

Definition interest_coverage_score (interest_coverage : pynum) : float :=
  if py_gt interest_coverage 3 then 5 else if py_gt interest_coverage 1.5 then 3 else 0.

Definition current_ratio_score (current_ratio : pynum) : float :=
  if py_gt current_ratio 1.5 then 5 else if py_gt current_ratio 1.2 then 3 else 0.

Definition free_cash_flow_score (free_cash_flow : pynum) : float :=
  if py_gt free_cash_flow 0 then 5 else 0.

Definition revenue_growth_5y_score (revenue_growth : pynum) : float :=
  if py_gt revenue_growth 15 then 5 else if py_gt revenue_growth 10 then 3 else 0.

Definition profit_growth_5y_score (profit_growth : pynum) : float :=
  if py_gt profit_growth 20 then 5 else if py_gt profit_growth 10 then 3 else 0.

Definition cash_flow_growth_score (cash_flow_growth : pynum) : float :=
  if py_gt cash_flow_growth 15 then 5 else if py_gt cash_flow_growth 10 then 3 else 0.

Definition pe_ratio_score (pe : pynum) : float :=
  if py_lt pe 15 then 5 else if py_lt pe 25 then 3 else 0.

Definition peg_ratio_score (peg : pynum) : float :=
  if py_lt peg 1 then 5 else if py_lt peg 2 then 3 else 0.

Definition pb_ratio_score (pb : pynum) : float :=
  if py_lt pb 1.5 then 5 else if py_lt pb 2.5 then 3 else 0.

Definition ev_ebitda_score (ev_ebitda : pynum) : float :=
  if py_lt ev_ebitda 10 then 5 else if py_lt ev_ebitda 15 then 3 else 0.

Definition liquidity_score (liquidity : pynum) : float :=
  if py_gt liquidity 100000 then 5 else if py_gt liquidity 50000 then 3 else 0.

Definition promoter_holding_score (promoter_holding : pynum) : float :=
  if py_gt promoter_holding 50 then 5 else if py_gt promoter_holding 30 then 3 else 0.

Definition promoter_holding_growth_score (promoter_holding_growth : pynum) : float :=
  if py_gt promoter_holding_growth 0 then 5
  else if py_eq promoter_holding_growth 0 then 3 else 0.

(** The quantitative part (score.py, lines 6-80): the default [0] of the
    source is the int 0, [np.inf] is a float. *)
Definition quantitative_scores (quantitative : dict metric) : result (dict float) :=
  let factor_scores : dict float := [] in
  mc <- get_val quantitative "market_cap" (PyInt 0) ;;
  let factor_scores := dict_set "market_cap" (market_cap_score mc) factor_scores in
  sp <- get_val quantitative "stock_price" (PyInt 0) ;;
  let factor_scores := dict_set "stock_price" (stock_price_score sp) factor_scores in
  eps_growth <- (v <- get_val quantitative "eps_growth_5y" (PyInt 0) ;; Ok (py_mul_100 v)) ;;
  let factor_scores :=
    dict_set "eps_growth_5y" (eps_growth_5y_score eps_growth) factor_scores in
  roe <- (v <- get_val quantitative "roe" (PyInt 0) ;; Ok (py_mul_100 v)) ;;
  let factor_scores := dict_set "roe" (roe_score roe) factor_scores in
  roce <- (v <- get_val quantitative "roce" (PyInt 0) ;; Ok (py_mul_100 v)) ;;
  let factor_scores := dict_set "roce" (roce_score roce) factor_scores in
  op_margin <- (v <- get_val quantitative "operating_margin" (PyInt 0) ;;
                Ok (py_mul_100 v)) ;;
  let factor_scores :=
    dict_set "operating_margin" (operating_margin_score op_margin) factor_scores in
  net_margin <- (v <- get_val quantitative "net_margin" (PyInt 0) ;; Ok (py_mul_100 v)) ;;
  let factor_scores := dict_set "net_margin" (net_margin_score net_margin) factor_scores in
  de_ratio <- get_val quantitative "de_ratio" (PyFloat np_inf) ;;
  let factor_scores := dict_set "de_ratio" (de_ratio_score de_ratio) factor_scores in
  interest_coverage <- get_val quantitative "interest_coverage" (PyInt 0) ;;
  let factor_scores :=
    dict_set "interest_coverage" (interest_coverage_score interest_coverage) factor_scores in
  current_ratio <- get_val quantitative "current_ratio" (PyInt 0) ;;
  let factor_scores :=
    dict_set "current_ratio" (current_ratio_score current_ratio) factor_scores in
  free_cash_flow <- get_val quantitative "free_cash_flow" (PyInt 0) ;;
  let factor_scores :=
    dict_set "free_cash_flow" (free_cash_flow_score free_cash_flow) factor_scores in
  revenue_growth <- (v <- get_val quantitative "revenue_growth_5y" (PyInt 0) ;;
                     Ok (py_mul_100 v)) ;;
  let factor_scores :=
    dict_set "revenue_growth_5y" (revenue_growth_5y_score revenue_growth) factor_scores in
  profit_growth <- (v <- get_val quantitative "profit_growth_5y" (PyInt 0) ;;
                    Ok (py_mul_100 v)) ;;
  let factor_scores :=
    dict_set "profit_growth_5y" (profit_growth_5y_score profit_growth) factor_scores in
  cash_flow_growth <- get_val quantitative "cash_flow_growth" (PyInt 0) ;;
  let factor_scores :=
    dict_set "cash_flow_growth" (cash_flow_growth_score cash_flow_growth) factor_scores in
  pe <- get_val quantitative "pe_ratio" (PyFloat np_inf) ;;
  let factor_scores := dict_set "pe_ratio" (pe_ratio_score pe) factor_scores in
  peg <- get_val quantitative "peg_ratio" (PyFloat np_inf) ;;
  let factor_scores := dict_set "peg_ratio" (peg_ratio_score peg) factor_scores in
  pb <- get_val quantitative "pb_ratio" (PyFloat np_inf) ;;
  let factor_scores := dict_set "pb_ratio" (pb_ratio_score pb) factor_scores in
  ev_ebitda <- get_val quantitative "ev_ebitda" (PyFloat np_inf) ;;
  let factor_scores := dict_set "ev_ebitda" (ev_ebitda_score ev_ebitda) factor_scores in
  liquidity <- get_val quantitative "liquidity" (PyInt 0) ;;
  let factor_scores := dict_set "liquidity" (liquidity_score liquidity) factor_scores in
  promoter_holding <- get_val quantitative "promoter_holding" (PyInt 0) ;;
  let factor_scores :=
    dict_set "promoter_holding" (promoter_holding_score promoter_holding) factor_scores in
  promoter_holding_growth <- get_val quantitative "promoter_holding_growth" (PyInt 0) ;;
  let factor_scores :=
    dict_set "promoter_holding_growth"
      (promoter_holding_growth_score promoter_holding_growth) factor_scores in
  Ok factor_scores.

Record stock : Type := mkStock {
  stock_quantitative : option (dict metric);
  stock_qualitative : option (dict float)
}.

Definition quantitative_of (s : stock) : dict metric :=
  get_or_empty (stock_quantitative s).

Definition qualitative_of (s : stock) : dict float :=
  get_or_empty (stock_qualitative s).

(** [multibagger_score_two_dim] (score.py, lines 3-92) *)
Definition multibagger_score_two_dim (s : stock) : result (float * float * dict float) :=
  let quantitative := quantitative_of s in
  factor_scores <- quantitative_scores quantitative ;;
  let qualitative := qualitative_of s in
  let factor_scores := add_qualitative qualitative factor_scores in
  aggregate factor_scores.

(** [np.isnan] accepts the metric: it is not an int beyond 64 bits. *)
Definition accepted (m : option metric) : bool :=
  match m with
  | Some (Some (PyInt n)) => fits_64_bits n
  | _ => true
  end.

(** [np.isnan] accepts the metric of each of the 21 factors. *)
Definition all_accepted (quantitative : dict metric) : bool :=
  forallb (fun name => accepted (dict_get name quantitative)) quantitative_factors.

(** [{'quantitative': {'market_cap': 10**20}, 'qualitative': {}}] *)
Definition stock_huge_market_cap : stock :=
  mkStock (Some [("market_cap", Some (PyInt (10 ^ 20)))]) (Some []).

(** Metrics as a data source returns them: ints beside floats. *)
Definition stock_int_metrics : stock :=
  mkStock (Some [("market_cap", Some (PyInt 1500000000000));
                 ("liquidity", Some (PyInt 250000));
                 ("roe", Some (PyFloat 0.18)); ("eps_growth_5y", Some (PyInt 1));
                 ("pe_ratio", None)])
          (Some []).

End AnyNumber.

(** A record of floats and [None] among the records of any numbers. *)
Definition of_floats (quantitative : dict metric) : dict AnyNumber.metric :=
  map (fun item => (fst item, option_map AnyNumber.PyFloat (snd item))) quantitative.

Definition any_number (s : stock) : AnyNumber.stock :=
  AnyNumber.mkStock (option_map of_floats (stock_quantitative s)) (stock_qualitative s).

(** ** Vocabulary of the statements *)

(** The test of [get_val]: the key is missing, or its value is [None] or NaN. *)
Definition metric_missing (quantitative : dict metric) (key : string) : bool :=
  match dict_get key quantitative with
  | None | Some None => true
  | Some (Some x) => PrimFloat.is_nan x
  end.

(** The key is missing, or its value is [None], NaN, [inf] or [-inf]. *)
Definition metric_not_finite (quantitative : dict metric) (key : string) : bool :=
  match dict_get key quantitative with
  | None | Some None => true
  | Some (Some x) => negb (PrimFloat.is_finite x)
  end.

(** The factors whose calls of [get_val] pass [np.inf] as the default. *)
Definition infinity_default_factors : list string :=
  [ "de_ratio"; "pe_ratio"; "peg_ratio"; "pb_ratio"; "ev_ebitda" ].

Definition has_infinity_default (name : string) : bool :=
  existsb (String.eqb name) infinity_default_factors.

(** [name] is the name of a quantitative factor. *)
Definition is_quantitative_factor (name : string) : bool :=
  existsb (String.eqb name) quantitative_factors.


(** The scores a factor's step function may give. *)
Definition score_range (name : string) : list float :=
  if String.eqb name "market_cap" then [0; 2; 3; 4; 5]
  else if String.eqb name "stock_price" then [0; 3; 4; 5]
  else [0; 3; 5].

(** Line 80 is reached and [factor_scores] holds [v] under [name] there. *)
Definition scored (quantitative : dict metric) (name : string) (v : float) : Prop :=
  exists factor_scores,
    quantitative_scores quantitative = Ok factor_scores /\
    dict_get name factor_scores = Some v.

(** The function returns, and the returned breakdown holds [v] under [name]. *)
Definition returned (s : stock) (name : string) (v : float) : Prop :=
  exists total percentage bd,
    multibagger_score_two_dim s = Ok (total, percentage, bd) /\
    dict_get name bd = Some v.

(** [name] got the score [v] from its step function, and the returned
    breakdown holds it unless the caller's qualitative mapping has a key of
    the same name. *)
Definition factor_scored (s : stock) (name : string) (v : float) : Prop :=
  scored (quantitative_of s) name v /\
  (dict_mem name (qualitative_of s) = false -> returned s name v).

(** The breakdown of a record in which every metric is missing. *)
Definition all_missing_breakdown : dict float :=
  [ ("market_cap", 5); ("stock_price", 5); ("eps_growth_5y", 0); ("roe", 0);
    ("roce", 0); ("operating_margin", 0); ("net_margin", 0); ("de_ratio", 0);
    ("interest_coverage", 0); ("current_ratio", 0); ("free_cash_flow", 0);
    ("revenue_growth_5y", 0); ("profit_growth_5y", 0); ("cash_flow_growth", 0);
    ("pe_ratio", 0); ("peg_ratio", 0); ("pb_ratio", 0); ("ev_ebitda", 0);
    ("liquidity", 0); ("promoter_holding", 0); ("promoter_holding_growth", 3) ].

(** The whole part of a finite float, toward zero; 0 for the others. *)
Definition whole_part (v : float) : Z :=
  match Prim2SF v with
  | S754_finite s m e =>
      cond_Zopp s (if (0 <=? e)%Z then Z.pos m * 2 ^ e else Z.pos m / 2 ^ (- e))%Z
  | _ => 0%Z
  end.

(** [v] is a whole number and is not negative: 0, 1, 2, ... *)
Definition is_count (v : float) : bool :=
  PrimFloat.Leibniz.eqb v (float_of_int (whole_part v)) && (0 <=? whole_part v)%Z.

(** The sum of the whole parts, an integer. *)
Definition whole_total (l : list float) : Z :=
  fold_right Z.add 0%Z (map whole_part l).

(** [q] followed by [k] zero bits. *)
Definition shl (q : positive) (k : nat) : positive := Nat.iter k xO q.

(** The binary64 form of a positive integer of at most 53 bits: 53 bits
    of mantissa and the exponent that goes with them. *)
Definition norm (q : positive) : spec_float :=
  let k := Z.to_nat (53 - Z.pos (digits2_pos q)) in
  S754_finite false (shl q k) (- Z.of_nat k).

(** ** Inputs used below *)

(** [{'quantitative': {}, 'qualitative': {}}] *)
Definition stock_empty : stock := mkStock (Some []) (Some []).

(** A record whose metrics are NaN, [None] or left out, as the fetchers
    leave them when a figure is not available. *)
Definition stock_unknown : stock :=
  mkStock (Some [("market_cap", Some nan); ("stock_price", None);
                 ("roe", Some nan); ("promoter_holding_growth", Some nan)])
          None.

(** [{'quantitative': {'market_cap': inf}, 'qualitative': {}}] *)
Definition stock_infinite_market_cap : stock :=
  mkStock (Some [("market_cap", Some infinity)]) (Some []).

(** [{'quantitative': {'de_ratio': -inf}, 'qualitative': {}}] *)
Definition stock_negative_infinite_de_ratio : stock :=
  mkStock (Some [("de_ratio", Some neg_infinity)]) (Some []).

(** [{'quantitative': {'de_ratio': 0.5}, 'qualitative': {}}] *)
Definition stock_de_ratio_half : stock :=
  mkStock (Some [("de_ratio", Some 0.5)]) (Some []).

(** [{'quantitative': {'de_ratio': 0.49999}, 'qualitative': {}}] *)
Definition stock_de_ratio_below_half : stock :=
  mkStock (Some [("de_ratio", Some 0.49999)]) (Some []).

(** [{'quantitative': {'cash_flow_growth': 0.2, 'revenue_growth_5y': 0.2},
      'qualitative': {}}] *)
Definition stock_growth_20_percent : stock :=
  mkStock (Some [("cash_flow_growth", Some 0.2); ("revenue_growth_5y", Some 0.2)])
          (Some []).

(** [{'quantitative': {'market_cap': 50e9, 'stock_price': 300, 'roe': 0.18,
      'de_ratio': 0.3, 'pe_ratio': 12, 'promoter_holding': 55},
      'qualitative': {}}] *)
Definition stock_six_metrics : stock :=
  mkStock (Some [("market_cap", Some 50e9); ("stock_price", Some 300);
                 ("roe", Some 0.18); ("de_ratio", Some 0.3);
                 ("pe_ratio", Some 12); ("promoter_holding", Some 55)])
          (Some []).

(** [{'quantitative': {}, 'qualitative': {'moat': 4}}] *)
Definition stock_moat : stock := mkStock (Some []) (Some [("moat", 4)]).


(** [{'quantitative': {}, 'qualitative': {'roe': 7.5}}] *)
Definition stock_roe_out_of_range : stock :=
  mkStock (Some []) (Some [("roe", 7.5)]).

(** [{'quantitative': {}, 'qualitative': {'promoter_holding_growth': 0}}] *)
Definition stock_growth_override : stock :=
  mkStock (Some []) (Some [("promoter_holding_growth", 0)]).

(** ** Vocabulary of the further properties *)

(** The factors whose step function tests [<]: the smaller number is the
    better one.  The step functions of the other factors test [>]. *)
Definition lower_is_better (name : string) : bool :=
  existsb (String.eqb name)
    [ "market_cap"; "stock_price"; "de_ratio"; "pe_ratio"; "peg_ratio";
      "pb_ratio"; "ev_ebitda" ].

(** For the factor [f], the number [y] is at least as good as [x]. *)
Definition at_least_as_good (f : factor) (x y : float) : bool :=
  if lower_is_better (factor_name f) then y <=? x else x <=? y.

(** A score as an integer. *)
Definition score_points (v : float) : Z :=
  if v =? 5 then 5%Z else if v =? 4 then 4%Z else if v =? 3 then 3%Z
  else if v =? 2 then 2%Z else 0%Z.

(** The scores the step functions use. *)
Definition five_scores : list float := [0; 2; 3; 4; 5].

(** The integer total of a list of scores. *)
Definition points_total (l : list float) : Z :=
  fold_right Z.add 0%Z (map score_points l).

(** A record every factor of which is in its lowest tier. *)
Definition stock_worst : stock :=
  mkStock (Some [("market_cap", Some 5000e9); ("stock_price", Some 2000);
                 ("promoter_holding_growth", Some (-1))])
          (Some []).

(** A record every factor of which is in its highest tier. *)
Definition stock_best : stock :=
  mkStock (Some [("market_cap", Some 50e9); ("stock_price", Some 300);
                 ("eps_growth_5y", Some 0.25); ("roe", Some 0.18);
                 ("roce", Some 0.2); ("operating_margin", Some 0.25);
                 ("net_margin", Some 0.2); ("de_ratio", Some 0.3);
                 ("interest_coverage", Some 4); ("current_ratio", Some 2);
                 ("free_cash_flow", Some 1000000); ("revenue_growth_5y", Some 0.2);
                 ("profit_growth_5y", Some 0.25); ("cash_flow_growth", Some 20);
                 ("pe_ratio", Some 12); ("peg_ratio", Some 0.5);
                 ("pb_ratio", Some 1); ("ev_ebitda", Some 8);
                 ("liquidity", Some 200000); ("promoter_holding", Some 55);
                 ("promoter_holding_growth", Some 1.5)])
          (Some []).

(** A record whose six metrics are each no better than those of
    [stock_six_metrics]. *)
Definition stock_six_weaker_metrics : stock :=
  mkStock (Some [("market_cap", Some 200e9); ("stock_price", Some 1500);
                 ("roe", Some 0.12); ("de_ratio", Some 0.8);
                 ("pe_ratio", Some 20); ("promoter_holding", Some 40)])
          (Some []).

(** The record of [stock_six_metrics] with its keys in another order and
    with keys the scoring does not read. *)
Definition stock_six_metrics_and_more : stock :=
  mkStock (Some [("beta", Some 1.2); ("promoter_holding", Some 55);
                 ("pe_ratio", Some 12); ("eps", None); ("de_ratio", Some 0.3);
                 ("roe", Some 0.18); ("stock_price", Some 300);
                 ("dividend_yield", Some nan); ("market_cap", Some 50e9)])
          (Some []).

(** [{'quantitative': {'roe': 0.18}, 'qualitative': {'moat': 4, 'management': 2}}] *)
Definition stock_two_qualitative : stock :=
  mkStock (Some [("roe", Some 0.18)]) (Some [("moat", 4); ("management", 2)]).

(** * The callers of the scoring engine

    [run_scanner] (multibagger.py) and the main block of
    multibagger_backtest.py score one symbol after the other.  What they do
    with one symbol, once the network has answered, is a function of the
    values fetched; the fetched values are its arguments here, and the
    [print] calls are left out. *)

(** ** Python values *)

Inductive pyval : Type :=
| VNone
| VBool (b : bool)
| VNum (x : float)
| VStr (s : string).

(** [bool(v)] *)
Definition truthy (v : pyval) : bool :=
  match v with
  | VNone => false
  | VBool b => b
  | VNum x => negb (x =? 0)
  | VStr s => negb (String.eqb s "")
  end.

(** [a and b], both already evaluated. *)
Definition py_and (a b : pyval) : pyval := if truthy a then b else a.

(** [v > c] for a number [c]: a [TypeError] on [None] and on a string. *)
Definition py_gt (v : pyval) (c : float) : result pyval :=
  match v with
  | VNum x => Ok (VBool (x >? c))
  | VBool b => Ok (VBool ((if b then 1 else 0) >? c))
  | VNone | VStr _ => Raise TypeError
  end.

Definition of_metric (m : metric) : pyval :=
  match m with
  | Some x => VNum x
  | None => VNone
  end.

(** [d.get(k, default)] on a dictionary of metrics. *)
Definition metrics_get (k : string) (metrics : dict metric) (default : pyval) : pyval :=
  match dict_get k metrics with
  | Some v => of_metric v
  | None => default
  end.

(** [d.update(other)] *)
Definition dict_update {V : Type} (d other : dict V) : dict V :=
  fold_left (fun acc item => dict_set (fst item) (snd item) acc) (dict_items other) d.

(** The metrics as values of a result row. *)
Definition metrics_values (metrics : dict metric) : dict pyval :=
  map (fun item => (fst item, of_metric (snd item))) metrics.

(** [{f"{key} (s)": v for key, v in breakdown.items()}]
    (multibagger.py, line 147; multibagger_backtest.py, line 76) *)
Definition with_suffix (breakdown : dict float) : dict pyval :=
  fold_left (fun acc item => dict_set (fst item ++ " (s)")%string (VNum (snd item)) acc)
    (dict_items breakdown) [].

(** What one symbol leaves in [penny_stocks_results]: nothing, a result
    row, or the error row [{"Symbol": ticker, "Error": str(e)}]. *)
Inductive scan_outcome : Type :=
| Skipped
| Stored (result_data : dict pyval)
| Failed (ticker : string) (e : exn).

(** [promoter_holding and promoter_holding > threshold]: the comparison is
    evaluated only when [promoter_holding] is truthy. *)
Definition has_high_promoter_holding (promoter_holding : pyval) (threshold : float)
  : result pyval :=
  if truthy promoter_holding then py_gt promoter_holding threshold
  else Ok promoter_holding.

(** ** One symbol of [run_scanner] (multibagger.py, lines 94-158) *)

Definition scanner_MARKET_CAP_THRESHOLD : float := 5000000000.   (* 500 * 10**7 *)
Definition scanner_STOCK_PRICE_THRESHOLD : float := 100.
Definition scanner_PROMOTER_HOLDING_THRESHOLD : float := 50.

(** [is_low_price and is_small_cap and has_high_promoter_holding] *)
Definition scanner_is_penny_stock (price market_cap : float) (metrics : dict metric)
  : result pyval :=
  let promoter_holding := metrics_get "promoter_holding" metrics (VNum 0) in
  let is_low_price := VBool (price <? scanner_STOCK_PRICE_THRESHOLD) in
  let is_small_cap := VBool (market_cap <? scanner_MARKET_CAP_THRESHOLD) in
  has_high <- has_high_promoter_holding promoter_holding
                scanner_PROMOTER_HOLDING_THRESHOLD ;;
  Ok (py_and (py_and is_low_price is_small_cap) has_high).

(** [price] and [market_cap] are the two values read from [stock_info],
    [metrics] is [fetch_quantitative_data(ticker)['metrics']]. *)
Definition scan_symbol (symbol : string) (price market_cap : option float)
    (metrics : dict metric) : scan_outcome :=
  let ticker := (symbol ++ ".NS")%string in
  match price, market_cap with
  | Some price, Some market_cap =>
      let attempt : result (dict pyval) :=
        is_penny_stock <- scanner_is_penny_stock price market_cap metrics ;;
        let stock_for_scoring := mkStock (Some metrics) (Some []) in
        scored <- multibagger_score_two_dim stock_for_scoring ;;
        let '(score, percentage_score, breakdown) := scored in
        let result_data : dict pyval :=
          [ ("Symbol", VStr ticker);
            ("Price", VNum price);
            ("Market Cap (Cr)", VNum (market_cap / 10000000));
            ("Score (%)", VNum percentage_score);
            ("Penny_stock", is_penny_stock) ] in
        let breakdown_with_suffix := with_suffix breakdown in
        let result_data := dict_update result_data (metrics_values metrics) in
        let result_data := dict_update result_data breakdown_with_suffix in
        Ok result_data in
      match attempt with
      | Ok result_data => Stored result_data
      | Raise e => Failed ticker e
      end
  | _, _ => Skipped
  end.

(** ** One symbol of the backtest (multibagger_backtest.py, lines 23-90) *)

Definition backtest_MARKET_CAP_THRESHOLD : float := 105000000000.   (* 10500 * 10**7 *)
Definition backtest_STOCK_PRICE_THRESHOLD : float := 2200.
Definition backtest_PROMOTER_HOLDING_THRESHOLD : float := 20.

(** [metrics.get(key)] as a number: [None] when the key is missing or holds
    [None]. *)
Definition metrics_number (key : string) (metrics : dict metric) : option float :=
  match dict_get key metrics with
  | Some v => v
  | None => None
  end.

(** [metrics] is [quantitative_data.get('metrics')], [None] when
    [quantitative_data] is falsy or has no such key.  An exception inside
    the [try] skips the symbol. *)
Definition backtest_symbol (symbol : string) (metrics : option (dict metric))
  : scan_outcome :=
  let ticker := (symbol ++ ".NS")%string in
  match metrics with
  | None | Some [] => Skipped                     (* not quantitative_data.get('metrics') *)
  | Some metrics =>
      match metrics_number "stock_price" metrics, metrics_number "market_cap" metrics with
      | Some price, Some market_cap =>
          if (price <? backtest_STOCK_PRICE_THRESHOLD)
             && (market_cap <? backtest_MARKET_CAP_THRESHOLD)
          then
            let promoter_holding := metrics_get "promoter_holding" metrics (VNum 0) in
            let attempt : result scan_outcome :=
              high <- has_high_promoter_holding promoter_holding
                        backtest_PROMOTER_HOLDING_THRESHOLD ;;
              if truthy high then
                let stock_for_scoring := mkStock (Some metrics) (Some []) in
                scored <- multibagger_score_two_dim stock_for_scoring ;;
                let '(score, percentage_score, breakdown) := scored in
                let result_data : dict pyval :=
                  [ ("Symbol", VStr ticker);
                    ("Price", VNum price);
                    ("Market Cap (Cr)", VNum (market_cap / 10000000));
                    ("Score (%)", VNum percentage_score) ] in
                let breakdown_with_suffix := with_suffix breakdown in
                let result_data := dict_update result_data (metrics_values metrics) in
                let result_data := dict_update result_data breakdown_with_suffix in
                Ok (Stored result_data)
              else Ok Skipped in
            match attempt with
            | Ok outcome => outcome
            | Raise _ => Skipped
            end
          else Skipped
      | _, _ => Skipped
      end
  end.

(** The five columns [run_scanner] writes before the metrics. *)
Definition scanner_columns : list string :=
  [ "Symbol"; "Price"; "Market Cap (Cr)"; "Score (%)"; "Penny_stock" ].

(** The columns of the breakdown in a result row. *)
Definition score_columns : list string :=
  map (fun name => (name ++ " (s)")%string) quantitative_factors.

(** The three tests of a penny stock on numbers: [promoter_holding] is
    there and above the threshold. *)
Definition passes_promoter_test (metrics : dict metric) (threshold : float) : bool :=
  match metrics_number "promoter_holding" metrics with
  | Some x => x >? threshold
  | None => false
  end.

(** A record with a low price, a small capitalisation and a promoter
    holding of zero. *)
Definition metrics_zero_promoter : dict metric :=
  [("promoter_holding", Some 0); ("roe", Some 0.2)].

(** A record the backtest scores. *)
Definition metrics_backtest_pass : dict metric :=
  [("promoter_holding", Some 60); ("stock_price", Some 50);
   ("market_cap", Some 1000000000)].

(** * The converter of the result file (csv_to_json_converter.py)

    [convert_csv_to_json] on the rows [csv.reader] yields; [float] on a
    string is a parameter, [None] standing for its [ValueError].  A string
    holds code points below 256. *)

(** [c.isspace()] *)
Definition is_space (c : Ascii.ascii) : bool :=
  let n := Ascii.nat_of_ascii c in
  (((9 <=? n) && (n <=? 13)) || ((28 <=? n) && (n <=? 32))
   || (n =? 133) || (n =? 160))%nat.

Fixpoint lstrip (s : string) : string :=
  match s with
  | EmptyString => EmptyString
  | String c rest => if is_space c then lstrip rest else s
  end.

Fixpoint rstrip (s : string) : string :=
  match s with
  | EmptyString => EmptyString
  | String c rest =>
      match rstrip rest with
      | EmptyString => if is_space c then EmptyString else String c EmptyString
      | kept => String c kept
      end
  end.

(** [s.strip()] *)
Definition strip (s : string) : string := lstrip (rstrip s).

(** [s.endswith(suffix)] *)
Fixpoint ends_with (suffix s : string) : bool :=
  if String.eqb s suffix then true
  else match s with
       | EmptyString => false
       | String _ rest => ends_with suffix rest
       end.

(** [l.index(x)]: the first position of [x]; [None] for its [ValueError]. *)
Fixpoint list_index (x : string) (l : list string) : option nat :=
  match l with
  | [] => None
  | y :: rest => if String.eqb x y then Some O else option_map S (list_index x rest)
  end.

Fixpoint enumerate_from {A : Type} (n : nat) (l : list A) : list (nat * A) :=
  match l with
  | [] => []
  | x :: rest => (n, x) :: enumerate_from (S n) rest
  end.

(** [enumerate(l)] *)
Definition enumerate {A : Type} (l : list A) : list (nat * A) := enumerate_from O l.

(** Lines 11-14 *)
Definition columns_to_remove (headers : list string) : list string :=
  "Conclusion" :: filter (fun header => ends_with "(s)" (strip header)) headers.

(** Line 17: the set [{headers.index(col) for col in columns_to_remove if col in headers}] *)
Definition indices_to_remove (headers : list string) : list nat :=
  flat_map (fun col => match list_index col headers with
                       | Some i => [i]
                       | None => []
                       end)
           (columns_to_remove headers).

(** [[x for i, x in enumerate(l) if i not in indices]] (lines 20 and 24) *)
Definition without_indices {A : Type} (indices : list nat) (l : list A) : list A :=
  map snd (filter (fun p => negb (existsb (Nat.eqb (fst p)) indices)) (enumerate l)).

Definition filtered_headers (headers : list string) : list string :=
  without_indices (indices_to_remove headers) headers.

(** Lines 28-31: the number when [float] accepts the cell, the cell itself
    when it does not, [None] when the row has no such cell. *)
Definition convert_cell (parse_float : string -> option float)
    (filtered_row : list string) (i : nat) : pyval :=
  match nth_error filtered_row i with
  | Some cell =>
      match parse_float cell with
      | Some x => VNum x
      | None => VStr cell
      end
  | None => VNone
  end.

(** Lines 23-31 *)
Definition convert_row (parse_float : string -> option float)
    (headers row : list string) : dict pyval :=
  let filtered_row := without_indices (indices_to_remove headers) row in
  fold_left
    (fun row_data p =>
       dict_set (snd p) (convert_cell parse_float filtered_row (fst p)) row_data)
    (enumerate (filtered_headers headers)) [].

(** Lines 5-33: [None] is the [StopIteration] of [next] on a file without a
    header line. *)
Definition convert_csv_to_json (parse_float : string -> option float)
    (csv : list (list string)) : option (list (dict pyval)) :=
  match csv with
  | [] => None
  | headers :: rows => Some (map (convert_row parse_float headers) rows)
  end.

(** The header test of lines 11-14. *)
Definition removable_column (header : string) : bool :=
  String.eqb header "Conclusion" || ends_with "(s)" (strip header).

(** A [float] for the examples: it accepts "1.5" and "2". *)
Definition parse_two_numbers (cell : string) : option float :=
  if String.eqb cell "1.5" then Some 1.5
  else if String.eqb cell "2" then Some 2 else None.

(** The number of positions below [i] that are not in [indices]: where
    the column of position [i] stands once the others are removed. *)
Definition kept_before (indices : list nat) (i : nat) : nat :=
  List.length (filter (fun k => negb (existsb (Nat.eqb k) indices)) (seq 0 i)).

(** * Properties *)

(** ** Floats *)

(** Two floats that [==] tells apart are different values. *)
Lemma float_eqb_false_neq (a b : float) :
  (a =? b) = false -> PrimFloat.is_nan a = false -> a <> b.
Proof.
  intros Hab Hnan Heq. subst b.
  unfold PrimFloat.is_nan in Hnan. rewrite Hab in Hnan. discriminate.
Qed.

Lemma Some_float_neq (a b : float) :
  (a =? b) = false -> PrimFloat.is_nan a = false -> Some a <> Some b.
Proof.
  intros Hab Hnan Heq. apply (float_eqb_false_neq a b Hab Hnan).
  exact (f_equal (fun o => match o with Some x => x | None => a end) Heq).
Qed.

(** ** Dictionaries *)

Section DictFacts.
Context {V : Type}.
Implicit Types (d : dict V) (k : string) (v : V).

Lemma dict_mem_In k d : dict_mem k d = true <-> In k (dict_keys d).
Proof.
  unfold dict_mem. rewrite existsb_exists. split.
  - intros (x & Hx & He). apply String.eqb_eq in He. now subst.
  - intros H. exists k. split; [assumption | apply String.eqb_refl].
Qed.

Lemma dict_mem_false k d : dict_mem k d = false <-> ~ In k (dict_keys d).
Proof.
  rewrite <- dict_mem_In. destruct (dict_mem k d); split; congruence.
Qed.

Lemma dict_mem_cons k k' v d :
  dict_mem k ((k', v) :: d) = (String.eqb k k' || dict_mem k d)%bool.
Proof. reflexivity. Qed.

Lemma dict_get_set_same k v d : dict_get k (dict_set k v d) = Some v.
Proof.
  induction d as [| [k' v'] d IH]; simpl.
  - now rewrite String.eqb_refl.
  - destruct (String.eqb k k') eqn:E; simpl.
    + now rewrite String.eqb_refl.
    + now rewrite E.
Qed.

Lemma dict_get_set_other k k' v d :
  k <> k' -> dict_get k (dict_set k' v d) = dict_get k d.
Proof.
  intros Hne. apply String.eqb_neq in Hne.
  induction d as [| [k'' v''] d IH]; simpl.
  - now rewrite Hne.
  - destruct (String.eqb k' k'') eqn:E; simpl.
    + apply String.eqb_eq in E. subst k''. now rewrite Hne.
    + now rewrite IH.
Qed.

Lemma dict_keys_set k v d :
  dict_keys (dict_set k v d) =
  if dict_mem k d then dict_keys d else dict_keys d ++ [k].
Proof.
  induction d as [| [k' v'] d IH]; simpl; [reflexivity |].
  rewrite dict_mem_cons.
  destruct (String.eqb k k') eqn:E; simpl.
  - apply String.eqb_eq in E. now subst.
  - unfold dict_keys in IH |- *. rewrite IH.
    now destruct (dict_mem k d).
Qed.

Lemma dict_set_length k v d :
  List.length (dict_set k v d) =
  if dict_mem k d then List.length d else S (List.length d).
Proof.
  rewrite <- (length_map fst (dict_set k v d)), <- (length_map fst d).
  fold (dict_keys (dict_set k v d)). fold (dict_keys d).
  rewrite dict_keys_set. destruct (dict_mem k d); [reflexivity |].
  rewrite length_app. simpl. lia.
Qed.

Lemma dict_set_wf k v d : dict_wf d -> dict_wf (dict_set k v d).
Proof.
  unfold dict_wf. rewrite dict_keys_set.
  destruct (dict_mem k d) eqn:E; [tauto |].
  intros Hwf. apply dict_mem_false in E.
  apply NoDup_app; [assumption | repeat constructor; simpl; tauto |].
  intros x Hx [<- | []]. contradiction.
Qed.

Lemma dict_mem_set k k' v d :
  dict_mem k (dict_set k' v d) = (String.eqb k k' || dict_mem k d)%bool.
Proof.
  unfold dict_mem at 1. rewrite dict_keys_set.
  destruct (dict_mem k' d) eqn:E.
  - fold (dict_mem k d). destruct (String.eqb k k') eqn:E'; [| reflexivity].
    apply String.eqb_eq in E'. subst. now rewrite E.
  - rewrite existsb_app. simpl. fold (dict_mem k d).
    rewrite orb_false_r. apply orb_comm.
Qed.
End DictFacts.

(** ** The qualitative loop *)

Lemma add_qualitative_cons k v qualitative fs :
  add_qualitative ((k, v) :: qualitative) fs =
  add_qualitative qualitative (dict_set k v fs).
Proof. reflexivity. Qed.

Lemma add_qualitative_wf qualitative : forall fs,
  dict_wf fs -> dict_wf (add_qualitative qualitative fs).
Proof.
  induction qualitative as [| [k v] qualitative IH]; intros fs Hwf.
  - exact Hwf.
  - rewrite add_qualitative_cons. apply IH. now apply dict_set_wf.
Qed.

(** A key the caller does not supply keeps the value it had. *)
Lemma add_qualitative_get_other name qualitative : forall fs,
  dict_mem name qualitative = false ->
  dict_get name (add_qualitative qualitative fs) = dict_get name fs.
Proof.
  induction qualitative as [| [k v] qualitative IH]; intros fs Hmem.
  - reflexivity.
  - rewrite dict_mem_cons in Hmem. apply orb_false_elim in Hmem as [Hk Hmem].
    rewrite add_qualitative_cons, IH by assumption.
    apply dict_get_set_other. now apply String.eqb_neq.
Qed.

(** A key the caller supplies ends with the caller's value. *)
Lemma add_qualitative_get k v qualitative : forall fs,
  dict_wf qualitative -> In (k, v) qualitative ->
  dict_get k (add_qualitative qualitative fs) = Some v.
Proof.
  induction qualitative as [| [k' v'] qualitative IH]; intros fs Hwf Hin.
  - destruct Hin.
  - inversion Hwf as [| ? ? Hnot Hwf']; subst.
    rewrite add_qualitative_cons. destruct Hin as [Heq | Hin].
    + inversion Heq; subst.
      rewrite add_qualitative_get_other by now apply dict_mem_false.
      apply dict_get_set_same.
    + now apply IH.
Qed.

Lemma add_qualitative_mem name qualitative : forall fs,
  dict_mem name (add_qualitative qualitative fs) =
  (dict_mem name fs || dict_mem name qualitative)%bool.
Proof.
  induction qualitative as [| [k v] qualitative IH]; intros fs.
  - simpl. now rewrite orb_false_r.
  - rewrite add_qualitative_cons, IH, dict_mem_set, dict_mem_cons.
    destruct (String.eqb name k), (dict_mem name fs); reflexivity.
Qed.


Lemma add_qualitative_length_ge qualitative : forall fs,
  (List.length fs <= List.length (add_qualitative qualitative fs))%nat.
Proof.
  induction qualitative as [| [k v] qualitative IH]; intros fs.
  - unfold add_qualitative. simpl. lia.
  - rewrite add_qualitative_cons. specialize (IH (dict_set k v fs)).
    rewrite dict_set_length in IH. destruct (dict_mem k fs); lia.
Qed.

(** ** [get_val] *)

(** [get_val] never applies [np.isnan] to [None]: it always returns. *)
Lemma get_val_ok (quantitative : dict metric) key default :
  get_val quantitative key default = Ok (metric_value quantitative key default).
Proof.
  unfold get_val, metric_value.
  destruct (dict_get key quantitative) as [[x |] |]; reflexivity.
Qed.

Lemma metric_value_missing (quantitative : dict metric) key default :
  metric_missing quantitative key = true ->
  metric_value quantitative key default = default.
Proof.
  unfold metric_missing, metric_value.
  destruct (dict_get key quantitative) as [[x |] |]; intros H;
    [now rewrite H | reflexivity | reflexivity].
Qed.

Lemma metric_value_present (quantitative : dict metric) key default x :
  dict_get key quantitative = Some (Some x) -> PrimFloat.is_nan x = false ->
  metric_value quantitative key default = x.
Proof. unfold metric_value. intros -> ->. reflexivity. Qed.

(** ** The quantitative part as a table *)

(** The straight-line code of lines 17-80 returns exactly the table's entries. *)
Lemma quantitative_scores_table quantitative :
  quantitative_scores quantitative = Ok (quantitative_entries quantitative).
Proof.
  unfold quantitative_scores. rewrite !get_val_ok. reflexivity.
Qed.

Lemma factor_table_names : map factor_name factor_table = quantitative_factors.
Proof. reflexivity. Qed.

Lemma quantitative_entries_keys quantitative :
  dict_keys (quantitative_entries quantitative) = quantitative_factors.
Proof. reflexivity. Qed.

Lemma quantitative_factors_NoDup : NoDup quantitative_factors.
Proof.
  apply (NoDup_count_occ' string_dec). intros x Hx.
  repeat (destruct Hx as [<- | Hx]; [reflexivity |]). destruct Hx.
Qed.

Lemma quantitative_entries_wf quantitative : dict_wf (quantitative_entries quantitative).
Proof.
  unfold dict_wf. rewrite quantitative_entries_keys.
  exact quantitative_factors_NoDup.
Qed.

Lemma quantitative_entries_length quantitative :
  List.length (quantitative_entries quantitative) = 21%nat.
Proof. reflexivity. Qed.

Lemma quantitative_entries_get quantitative f :
  In f factor_table ->
  dict_get (factor_name f) (quantitative_entries quantitative) =
  Some (factor_step f (factor_input quantitative f)).
Proof.
  intros Hin. unfold quantitative_entries.
  repeat (destruct Hin as [<- | Hin]; [reflexivity |]). destruct Hin.
Qed.

Lemma quantitative_entries_mem quantitative name :
  dict_mem name (quantitative_entries quantitative) = is_quantitative_factor name.
Proof. reflexivity. Qed.

Lemma is_quantitative_factor_In name :
  is_quantitative_factor name = true <-> In name quantitative_factors.
Proof.
  rewrite <- (quantitative_entries_mem [] name), <- (quantitative_entries_keys []).
  apply dict_mem_In.
Qed.

(** The score of a factor after line 80. *)
Lemma scored_table quantitative f :
  In f factor_table ->
  scored quantitative (factor_name f) (factor_step f (factor_input quantitative f)).
Proof.
  intros Hf. exists (quantitative_entries quantitative).
  split; [apply quantitative_scores_table | now apply quantitative_entries_get].
Qed.

(** ** The breakdown when line 88 is reached *)

Lemma breakdown_wf s : dict_wf (breakdown s).
Proof. apply add_qualitative_wf, quantitative_entries_wf. Qed.

Lemma breakdown_mem s name :
  dict_mem name (breakdown s) =
  (is_quantitative_factor name || dict_mem name (qualitative_of s))%bool.
Proof. unfold breakdown. now rewrite add_qualitative_mem, quantitative_entries_mem. Qed.

(** An entry no qualitative key touches is the score of lines 17-80. *)
Lemma breakdown_get_quantitative s name :
  dict_mem name (qualitative_of s) = false ->
  dict_get name (breakdown s) =
  dict_get name (quantitative_entries (quantitative_of s)).
Proof. intros H. unfold breakdown. now rewrite add_qualitative_get_other. Qed.

(** A qualitative key ends with the value the caller gave it. *)
Lemma breakdown_get_qualitative s k v :
  dict_wf (qualitative_of s) -> In (k, v) (qualitative_of s) ->
  dict_get k (breakdown s) = Some v.
Proof. intros Hwf Hin. unfold breakdown. now apply add_qualitative_get. Qed.

Lemma breakdown_count_one s name :
  dict_mem name (breakdown s) = true ->
  count_occ string_dec (dict_keys (breakdown s)) name = 1%nat.
Proof.
  intros H. apply dict_mem_In in H. revert name H.
  apply (NoDup_count_occ' string_dec). apply breakdown_wf.
Qed.

Lemma breakdown_count_one_factor s name :
  In name quantitative_factors ->
  count_occ string_dec (dict_keys (breakdown s)) name = 1%nat.
Proof.
  intros Hname. apply breakdown_count_one. rewrite breakdown_mem.
  apply is_quantitative_factor_In in Hname. now rewrite Hname.
Qed.


Lemma breakdown_length_ge s : (21 <= List.length (breakdown s))%nat.
Proof.
  unfold breakdown.
  rewrite <- (quantitative_entries_length (quantitative_of s)) at 1.
  apply add_qualitative_length_ge.
Qed.

(** ** The total and the percentage *)

(** Lines 88-92 on any dictionary of scores: the guard of line 91 keeps the
    division away from a zero divisor. *)
Lemma aggregate_spec factor_scores :
  aggregate factor_scores =
  Ok (py_sum (dict_values factor_scores),
      (if (len factor_scores =? 0)%Z then 0
       else py_sum (dict_values factor_scores)
            / float_of_int (5 * len factor_scores) * 100),
      factor_scores).
Proof.
  unfold aggregate, max_possible_score, py_truediv, len.
  destruct factor_scores as [| e rest].
  - reflexivity.
  - set (n := Z.of_nat (List.length (e :: rest))).
    assert (Hn : (0 < n)%Z) by (subst n; simpl List.length; lia).
    replace (n * 5 >? 0)%Z with true by (symmetry; apply Z.gtb_lt; lia).
    replace (n * 5 =? 0)%Z with false by (symmetry; apply Z.eqb_neq; lia).
    replace (n =? 0)%Z with false by (symmetry; apply Z.eqb_neq; lia).
    cbv beta iota delta [bind]. now rewrite (Z.mul_comm n 5).
Qed.

Lemma breakdown_len_pos s : (len (breakdown s) =? 0)%Z = false.
Proof.
  apply Z.eqb_neq. unfold len. pose proof (breakdown_length_ge s). lia.
Qed.

(** What the function returns, for every input. *)
Lemma multibagger_score_two_dim_spec s :
  multibagger_score_two_dim s =
  Ok (py_sum (dict_values (breakdown s)),
      py_sum (dict_values (breakdown s)) / float_of_int (5 * len (breakdown s)) * 100,
      breakdown s).
Proof.
  unfold multibagger_score_two_dim. rewrite quantitative_scores_table.
  cbv beta iota zeta delta [bind]. fold (breakdown s).
  now rewrite aggregate_spec, breakdown_len_pos.
Qed.

Lemma returned_breakdown s name v :
  dict_get name (breakdown s) = Some v -> returned s name v.
Proof.
  intros H. eexists _, _, _. split; [apply multibagger_score_two_dim_spec | exact H].
Qed.

Lemma returned_inv s name v :
  returned s name v -> dict_get name (breakdown s) = Some v.
Proof.
  intros (total & percentage & bd & Hret & Hget).
  rewrite multibagger_score_two_dim_spec in Hret.
  assert (Hbd : breakdown s = bd)
    by exact (f_equal (fun r => match r with Ok (_, _, b) => b | Raise _ => bd end) Hret).
  now rewrite Hbd.
Qed.

Lemma factor_scored_table s f :
  In f factor_table ->
  factor_scored s (factor_name f) (factor_step f (factor_input (quantitative_of s) f)).
Proof.
  intros Hf. split; [now apply scored_table |].
  intros Hmem. apply returned_breakdown.
  rewrite breakdown_get_quantitative by assumption.
  now apply quantitative_entries_get.
Qed.

(** ** A record without metrics *)

Lemma quantitative_entries_all_missing (quantitative : dict metric) :
  forallb (metric_missing quantitative) quantitative_factors = true ->
  quantitative_entries quantitative = all_missing_breakdown.
Proof.
  intros Hall. rewrite forallb_forall in Hall.
  change all_missing_breakdown with (map (factor_entry []) factor_table).
  unfold quantitative_entries. apply map_ext_in. intros f Hf.
  unfold factor_entry, factor_input. rewrite metric_value_missing; [reflexivity |].
  apply Hall. rewrite <- factor_table_names. now apply in_map.
Qed.

(** C1, as the code has it.  When every quantitative metric is missing (its
    key left out, or its value [None] or NaN) and there are no qualitative
    overrides, the engine returns total 13 and percentage 13/105*100:
    [market_cap] and [stock_price] score 5 each, [promoter_holding_growth]
    scores 3, and the other 18 quantitative factors score 0. *)
Theorem all_missing_scores_13 (s : stock) :
  forallb (metric_missing (quantitative_of s)) quantitative_factors = true ->
  qualitative_of s = [] ->
  multibagger_score_two_dim s = Ok (13, 13 / 105 * 100, all_missing_breakdown) /\
  all_missing_breakdown =
    map (fun name =>
           (name,
            if existsb (String.eqb name) ["market_cap"; "stock_price"] then 5
            else if String.eqb name "promoter_holding_growth" then 3 else 0))
        quantitative_factors.
Proof.
  intros Hall Hq. split; [| reflexivity].
  rewrite multibagger_score_two_dim_spec.
  assert (Hbd : breakdown s = all_missing_breakdown).
  { unfold breakdown. now rewrite Hq, (quantitative_entries_all_missing _ Hall). }
  rewrite Hbd. vm_compute. reflexivity.
Qed.

Lemma all_missing_scores_13_witness :
  forallb (metric_missing (quantitative_of stock_unknown)) quantitative_factors = true /\
  qualitative_of stock_unknown = [] /\
  multibagger_score_two_dim stock_unknown =
    Ok (13, 13 / 105 * 100, all_missing_breakdown).
Proof.
  split; [reflexivity |]. split; [reflexivity |].
  apply (all_missing_scores_13 stock_unknown); reflexivity.
Defined.

(** C1 as the claim words it fails: on the record without metrics and
    without overrides the total is not 10, the percentage is not 10/105*100,
    and [promoter_holding_growth] does not score 0. *)
Lemma all_missing_total_is_not_10 :
  exists total percentage bd,
    multibagger_score_two_dim stock_empty = Ok (total, percentage, bd) /\
    total <> 10 /\
    percentage <> 10 / 105 * 100 /\
    dict_get "promoter_holding_growth" bd <> Some 0.
Proof.
  exists 13, (13 / 105 * 100), all_missing_breakdown.
  split; [vm_compute; reflexivity |].
  split; [apply float_eqb_false_neq; reflexivity |].
  split; [apply float_eqb_false_neq; reflexivity |].
  apply Some_float_neq; reflexivity.
Qed.

(** ** Whole numbers in binary64 *)

Lemma shl_Pos_iter q d : Pos.iter xO q d = shl q (Pos.to_nat d).
Proof. unfold shl. now rewrite Pos2Nat.inj_iter. Qed.

Lemma shl_add q j k : shl (shl q j) k = shl q (k + j).
Proof. unfold shl. now rewrite Nat.iter_add. Qed.

Lemma shl_digits q k :
  Z.pos (digits2_pos (shl q k)) = (Z.pos (digits2_pos q) + Z.of_nat k)%Z.
Proof.
  induction k as [| k IH]; [simpl; lia |].
  unfold shl in *. rewrite Nat.iter_succ. simpl digits2_pos.
  rewrite Pos2Z.inj_succ, IH. lia.
Qed.

Lemma shl_plus a b k : (shl a k + shl b k)%positive = shl (a + b) k.
Proof.
  induction k as [| k IH]; [reflexivity |].
  unfold shl in *. rewrite !Nat.iter_succ. simpl. now rewrite IH.
Qed.

Lemma iter_pos_nat {A : Type} (f : A -> A) p : forall x,
  SpecFloat.iter_pos f p x = Nat.iter (Pos.to_nat p) f x.
Proof.
  induction p as [p IH | p IH |]; intros x; simpl SpecFloat.iter_pos.
  - rewrite !IH, <- Nat.iter_add, <- Nat.iter_succ_r. f_equal. lia.
  - rewrite !IH, <- Nat.iter_add. f_equal. lia.
  - reflexivity.
Qed.

(** Dropping [t] of the [k] zero bits leaves nothing behind. *)
Lemma shr_shl q t : forall k, (t <= k)%nat ->
  Nat.iter t shr_1 {| shr_m := Z.pos (shl q k); shr_r := false; shr_s := false |}
  = {| shr_m := Z.pos (shl q (k - t)); shr_r := false; shr_s := false |}.
Proof.
  induction t as [| t IH]; intros k Hk.
  - now rewrite Nat.sub_0_r.
  - destruct k as [| k]; [lia |].
    rewrite Nat.iter_succ_r. unfold shl at 1. rewrite Nat.iter_succ.
    simpl shr_1. fold (shl q k). rewrite IH by lia. reflexivity.
Qed.

(** The digits of a number below [2^n]. *)
Lemma digits2_pos_lower q : (2 ^ (Z.pos (digits2_pos q) - 1) <= Z.pos q)%Z.
Proof.
  induction q as [q IH | q IH |]; simpl digits2_pos.
  - rewrite Pos2Z.inj_succ. replace (Z.succ (Z.pos (digits2_pos q)) - 1)%Z
      with (Z.succ (Z.pos (digits2_pos q) - 1)) by lia.
    rewrite Z.pow_succ_r by lia. lia.
  - rewrite Pos2Z.inj_succ. replace (Z.succ (Z.pos (digits2_pos q)) - 1)%Z
      with (Z.succ (Z.pos (digits2_pos q) - 1)) by lia.
    rewrite Z.pow_succ_r by lia. lia.
  - simpl. lia.
Qed.

Lemma digits2_pos_bound q n :
  (0 <= n)%Z -> (Z.pos q < 2 ^ n)%Z -> (Z.pos (digits2_pos q) <= n)%Z.
Proof.
  intros Hn Hq. pose proof (digits2_pos_lower q) as Hl.
  destruct (Z_le_gt_dec (Z.pos (digits2_pos q)) n) as [H | H]; [exact H |].
  exfalso. assert (2 ^ n <= 2 ^ (Z.pos (digits2_pos q) - 1))%Z
    by (apply Z.pow_le_mono_r; lia). lia.
Qed.

Lemma binary_round_aux_shl q k :
  (Z.pos (digits2_pos q) <= 53)%Z ->
  (Z.to_nat (53 - Z.pos (digits2_pos q)) <= k)%nat ->
  binary_round_aux prec emax false (Z.pos (shl q k)) (- Z.of_nat k) loc_Exact = norm q.
Proof.
  intros Hd Hk. unfold norm. set (K := Z.to_nat (53 - Z.pos (digits2_pos q))) in *.
  assert (HK : Z.of_nat K = (53 - Z.pos (digits2_pos q))%Z) by (subst K; lia).
  unfold binary_round_aux, shr_fexp. simpl Zdigits2. rewrite shl_digits.
  unfold fexp, emin. simpl shr_record_of_loc.
  replace (Z.max (Z.pos (digits2_pos q) + Z.of_nat k + - Z.of_nat k - prec)
                 (3 - emax - prec) - - Z.of_nat k)%Z
    with (Z.of_nat (k - K)) by (unfold prec, emax; lia).
  assert (E1 : shr {| shr_m := Z.pos (shl q k); shr_r := false; shr_s := false |}
                 (- Z.of_nat k) (Z.of_nat (k - K))
               = ({| shr_m := Z.pos (shl q K); shr_r := false; shr_s := false |},
                  (- Z.of_nat K)%Z)).
  { unfold shr. destruct (Z.of_nat (k - K)) as [| p | p] eqn:E.
    - assert (k = K) by lia. now subst k.
    - rewrite iter_pos_nat. replace (Pos.to_nat p) with (k - K)%nat by lia.
      rewrite shr_shl by lia. do 2 f_equal.
      + f_equal. f_equal. lia.
      + lia.
    - lia. }
  rewrite E1. simpl shr_m. simpl loc_of_shr_record. simpl round_nearest_even.
  simpl Zdigits2. rewrite shl_digits. simpl shr_record_of_loc.
  replace (Z.max (Z.pos (digits2_pos q) + Z.of_nat K + - Z.of_nat K - prec)
                 (3 - emax - prec) - - Z.of_nat K)%Z
    with 0%Z by (unfold prec, emax; lia).
  cbv beta iota delta [shr shr_m].
  destruct (Z.leb_spec (- Z.of_nat K) (emax - prec)) as [_ | H]; [reflexivity |].
  unfold prec, emax in H. lia.
Qed.

Lemma binary_round_shl q k :
  (Z.pos (digits2_pos q) <= 53)%Z ->
  binary_round prec emax false (shl q k) (- Z.of_nat k) = norm q.
Proof.
  intros Hd. unfold binary_round. rewrite shl_digits. unfold fexp, emin, shl_align.
  set (K := Z.to_nat (53 - Z.pos (digits2_pos q))).
  assert (HK : Z.of_nat K = (53 - Z.pos (digits2_pos q))%Z) by (subst K; lia).
  replace (Z.max (Z.pos (digits2_pos q) + Z.of_nat k + - Z.of_nat k - prec)
                 (3 - emax - prec) - - Z.of_nat k)%Z
    with (Z.of_nat k - Z.of_nat K)%Z by (unfold prec, emax; lia).
  replace (Z.max (Z.pos (digits2_pos q) + Z.of_nat k + - Z.of_nat k - prec)
                 (3 - emax - prec))%Z
    with (- Z.of_nat K)%Z by (unfold prec, emax; lia).
  destruct (Z.of_nat k - Z.of_nat K)%Z as [| p | p] eqn:E.
  - apply binary_round_aux_shl; [exact Hd | fold K; lia].
  - apply binary_round_aux_shl; [exact Hd | fold K; lia].
  - rewrite shl_Pos_iter, shl_add.
    replace (Pos.to_nat p + k)%nat with K by lia.
    apply binary_round_aux_shl; [exact Hd | fold K; lia].
Qed.

Lemma binary_normalize_pos q :
  (Z.pos (digits2_pos q) <= 53)%Z ->
  binary_normalize prec emax (Z.pos q) 0 false = norm q.
Proof. intros Hd. exact (binary_round_shl q 0 Hd). Qed.

Lemma norm_valid q :
  (Z.pos (digits2_pos q) <= 53)%Z -> valid_binary (norm q) = true.
Proof.
  intros Hd. unfold norm. set (K := Z.to_nat (53 - Z.pos (digits2_pos q))).
  assert (HK : Z.of_nat K = (53 - Z.pos (digits2_pos q))%Z) by (subst K; lia).
  cbv beta iota zeta delta [SpecFloat.valid_binary bounded canonical_mantissa].
  rewrite shl_digits. unfold fexp, emin.
  apply andb_true_intro. split.
  - apply Z.eqb_eq. unfold prec, emax. lia.
  - apply Z.leb_le. unfold prec, emax. lia.
Qed.

Lemma SFadd_norm a b :
  (Z.pos (digits2_pos (a + b)) <= 53)%Z ->
  (Z.pos (digits2_pos a) <= 53)%Z -> (Z.pos (digits2_pos b) <= 53)%Z ->
  SFadd prec emax (norm a) (norm b) = norm (a + b).
Proof.
  intros Hab Ha Hb. unfold norm at 1 2.
  set (Ka := Z.to_nat (53 - Z.pos (digits2_pos a))).
  set (Kb := Z.to_nat (53 - Z.pos (digits2_pos b))).
  cbv beta iota zeta delta [SFadd].
  set (n := Nat.max Ka Kb).
  replace (Z.min (- Z.of_nat Ka) (- Z.of_nat Kb)) with (- Z.of_nat n)%Z by lia.
  assert (Ea : fst (shl_align (shl a Ka) (- Z.of_nat Ka) (- Z.of_nat n)) = shl a n).
  { unfold shl_align. destruct (- Z.of_nat n - - Z.of_nat Ka)%Z as [| p | p] eqn:E.
    - simpl. f_equal. lia.
    - lia.
    - simpl. rewrite shl_Pos_iter, shl_add. f_equal. lia. }
  assert (Eb : fst (shl_align (shl b Kb) (- Z.of_nat Kb) (- Z.of_nat n)) = shl b n).
  { unfold shl_align. destruct (- Z.of_nat n - - Z.of_nat Kb)%Z as [| p | p] eqn:E.
    - simpl. f_equal. lia.
    - lia.
    - simpl. rewrite shl_Pos_iter, shl_add. f_equal. lia. }
  rewrite Ea, Eb. simpl cond_Zopp. rewrite <- Pos2Z.inj_add, shl_plus.
  exact (binary_round_shl (a + b) n Hab).
Qed.

Lemma float_of_int_pos q :
  (Z.pos q < 2 ^ 53)%Z -> Prim2SF (float_of_int (Z.pos q)) = norm q.
Proof.
  intros Hq. pose proof (digits2_pos_bound q 53 ltac:(lia) Hq) as Hd.
  unfold float_of_int. rewrite binary_normalize_pos by assumption.
  now apply Prim2SF_SF2Prim, norm_valid.
Qed.

(** Adding two non-negative integers whose sum is below [2^53] is exact. *)
Lemma add_whole_exact a b :
  (0 <= a)%Z -> (0 <= b)%Z -> (a + b < 2 ^ 53)%Z ->
  float_of_int a + float_of_int b = float_of_int (a + b).
Proof.
  intros Ha Hb Hab. apply Prim2SF_inj. rewrite add_spec.
  destruct a as [| a | a]; [| | lia]; destruct b as [| b | b]; try lia.
  - reflexivity.
  - change (0 + Z.pos b)%Z with (Z.pos b).
    rewrite float_of_int_pos by lia. reflexivity.
  - rewrite Z.add_0_r, float_of_int_pos by lia. reflexivity.
  - rewrite !float_of_int_pos by lia. rewrite <- Pos2Z.inj_add in Hab |- *.
    rewrite float_of_int_pos by lia.
    apply SFadd_norm; apply digits2_pos_bound; lia.
Qed.

Lemma is_count_spec v :
  is_count v = true -> v = float_of_int (whole_part v) /\ (0 <= whole_part v)%Z.
Proof.
  unfold is_count. intros H. apply andb_prop in H as [H1 H2].
  split; [now apply FloatAxioms.Leibniz.eqb_spec | now apply Z.leb_le].
Qed.

Lemma whole_total_cons v l : whole_total (v :: l) = (whole_part v + whole_total l)%Z.
Proof. reflexivity. Qed.

Lemma whole_total_app l l' : whole_total (l ++ l') = (whole_total l + whole_total l')%Z.
Proof.
  induction l as [| v l IH]; [reflexivity |].
  simpl app. rewrite !whole_total_cons, IH. lia.
Qed.

Lemma whole_total_nonneg l : forallb is_count l = true -> (0 <= whole_total l)%Z.
Proof.
  induction l as [| v l IH]; intros H; [unfold whole_total; simpl; lia |].
  simpl in H. apply andb_prop in H as [Hv Hl].
  rewrite whole_total_cons. pose proof (proj2 (is_count_spec v Hv)). specialize (IH Hl). lia.
Qed.

(** Adding whole numbers one after the other loses nothing while the sum
    stays below [2^53]. *)
Lemma fold_add_whole l : forall a,
  (0 <= a)%Z -> forallb is_count l = true -> (a + whole_total l < 2 ^ 53)%Z ->
  fold_left PrimFloat.add l (float_of_int a) = float_of_int (a + whole_total l).
Proof.
  induction l as [| v l IH]; intros a Ha Hall Hlt.
  - simpl. unfold whole_total. simpl. now rewrite Z.add_0_r.
  - simpl in Hall. apply andb_prop in Hall as [Hv Hl].
    destruct (is_count_spec v Hv) as [Ev Hv0].
    pose proof (whole_total_nonneg l Hl) as Hl0.
    rewrite whole_total_cons in Hlt |- *.
    simpl fold_left. rewrite Ev at 1. rewrite add_whole_exact by lia.
    rewrite IH by (try assumption; lia). f_equal. lia.
Qed.

(** [sum] of whole numbers is their exact sum. *)
Lemma py_sum_whole l :
  forallb is_count l = true -> (whole_total l < 2 ^ 53)%Z ->
  py_sum l = float_of_int (whole_total l).
Proof.
  intros Hall Hlt. unfold py_sum.
  change (fold_left PrimFloat.add l 0) with (fold_left PrimFloat.add l (float_of_int 0)).
  now rewrite fold_add_whole.
Qed.

Section CountsInDict.
Implicit Types (d : dict float) (k : string) (v : float).

Lemma dict_set_counts k v d :
  forallb is_count (dict_values d) = true -> is_count v = true ->
  forallb is_count (dict_values (dict_set k v d)) = true /\
  (whole_total (dict_values (dict_set k v d))
   <= whole_total (dict_values d) + whole_part v)%Z.
Proof.
  intros Hd Hv. pose proof (proj2 (is_count_spec v Hv)) as Hv0.
  induction d as [| [k' v'] d IH]; simpl.
  - rewrite Hv. split; [reflexivity |]. unfold whole_total. simpl. lia.
  - simpl in Hd. apply andb_prop in Hd as [Hv' Hd].
    pose proof (proj2 (is_count_spec v' Hv')) as Hv'0.
    destruct (String.eqb k k'); simpl.
    + rewrite Hv, Hd. split; [reflexivity |].
      unfold dict_values. simpl map. rewrite !whole_total_cons. lia.
    + destruct (IH Hd) as [IH1 IH2]. rewrite Hv'.
      split; [exact IH1 |].
      unfold dict_values in *. simpl map. rewrite !whole_total_cons. lia.
Qed.

Lemma add_qualitative_counts qualitative : forall fs,
  forallb is_count (dict_values fs) = true ->
  forallb is_count (dict_values qualitative) = true ->
  forallb is_count (dict_values (add_qualitative qualitative fs)) = true /\
  (whole_total (dict_values (add_qualitative qualitative fs))
   <= whole_total (dict_values fs) + whole_total (dict_values qualitative))%Z.
Proof.
  induction qualitative as [| [k v] qualitative IH]; intros fs Hfs Hq.
  - split; [exact Hfs |]. unfold add_qualitative, whole_total. simpl. lia.
  - simpl in Hq. apply andb_prop in Hq as [Hv Hq].
    destruct (dict_set_counts k v fs Hfs Hv) as [H1 H2].
    destruct (IH (dict_set k v fs) H1 Hq) as [H3 H4].
    rewrite add_qualitative_cons. split; [exact H3 |].
    change (dict_values ((k, v) :: qualitative)) with (v :: dict_values qualitative).
    rewrite whole_total_cons. lia.
Qed.
End CountsInDict.

Ltac split_steps :=
  repeat match goal with
         | |- context [if ?c then _ else _] => destruct c
         end.

Lemma counts_of_steps (g : factor -> float) (l : list factor) :
  (forall f, In f l -> is_count (g f) = true /\ (whole_part (g f) <= 5)%Z) ->
  forallb is_count (map g l) = true /\
  (whole_total (map g l) <= 5 * Z.of_nat (List.length l))%Z.
Proof.
  induction l as [| f l IH]; intros H.
  - split; [reflexivity |]. unfold whole_total. simpl. lia.
  - destruct (H f (or_introl eq_refl)) as [Hc Hle].
    destruct IH as [IH1 IH2]; [intros f0 H0; apply H; now right |].
    simpl map. rewrite whole_total_cons. simpl forallb. rewrite Hc, IH1.
    split; [reflexivity |]. simpl List.length. lia.
Qed.

(** The 21 scores are whole numbers, 105 at most together. *)
Lemma quantitative_entries_counts quantitative :
  forallb is_count (dict_values (quantitative_entries quantitative)) = true /\
  (whole_total (dict_values (quantitative_entries quantitative)) <= 105)%Z.
Proof.
  unfold quantitative_entries, dict_values. rewrite map_map.
  apply (counts_of_steps
           (fun f => snd (factor_entry quantitative f)) factor_table).
  intros f Hf. unfold factor_entry. simpl snd.
  generalize (factor_input quantitative f). intros x.
  repeat (destruct Hf as [<- | Hf];
          [cbv beta iota delta
             [factor_step market_cap_score stock_price_score eps_growth_5y_score
              roe_score roce_score operating_margin_score net_margin_score
              de_ratio_score interest_coverage_score current_ratio_score
              free_cash_flow_score revenue_growth_5y_score profit_growth_5y_score
              cash_flow_growth_score pe_ratio_score peg_ratio_score pb_ratio_score
              ev_ebitda_score liquidity_score promoter_holding_score
              promoter_holding_growth_score];
           split_steps; (split; [vm_compute; reflexivity | vm_compute; discriminate]) |]).
  destruct Hf.
Qed.

(** With qualitative scores that are whole numbers, every value of the
    breakdown is one, and their sum is the function's total. *)
Lemma breakdown_counts s :
  forallb is_count (dict_values (qualitative_of s)) = true ->
  (whole_total (dict_values (qualitative_of s)) < 2 ^ 52)%Z ->
  forallb is_count (dict_values (breakdown s)) = true /\
  py_sum (dict_values (breakdown s))
  = float_of_int (whole_total (dict_values (breakdown s))).
Proof.
  intros Hq Hlt.
  destruct (quantitative_entries_counts (quantitative_of s)) as [H1 H2].
  destruct (add_qualitative_counts (qualitative_of s) _ H1 Hq) as [H3 H4].
  fold (breakdown s) in H3, H4. split; [exact H3 |].
  apply py_sum_whole; [exact H3 |].
  assert (105 + 2 ^ 52 < 2 ^ 53)%Z by (vm_compute; reflexivity). lia.
Qed.

(** ** Total, maximum and percentage *)




(** ** Factors in fractional form *)

(** The factors whose value is multiplied by 100 before the comparison. *)
Lemma factors_times_100 :
  map factor_name (filter factor_times_100 factor_table) =
  [ "eps_growth_5y"; "roe"; "roce"; "operating_margin"; "net_margin";
    "revenue_growth_5y"; "profit_growth_5y" ].
Proof. reflexivity. Qed.

(** A metric that is there reaches the step function as it is, or times 100
    for the factors of [factors_times_100]. *)
Lemma factor_input_present (quantitative : dict metric) f x :
  dict_get (factor_name f) quantitative = Some (Some x) ->
  PrimFloat.is_nan x = false ->
  factor_input quantitative f = if factor_times_100 f then x * 100 else x.
Proof.
  intros Hget Hnan. unfold factor_input.
  now rewrite (metric_value_present _ _ _ _ Hget Hnan).
Qed.

Lemma factor_scored_present s f x :
  In f factor_table ->
  dict_get (factor_name f) (quantitative_of s) = Some (Some x) ->
  PrimFloat.is_nan x = false ->
  factor_scored s (factor_name f)
    (factor_step f (if factor_times_100 f then x * 100 else x)).
Proof.
  intros Hf Hget Hnan. rewrite <- (factor_input_present _ _ _ Hget Hnan).
  now apply factor_scored_table.
Qed.

(** C3, at a growth of 20 percent given as 0.2.  The code compares
    [cash_flow_growth] with 15 and 10 as it is, so it scores 0 where the
    claim, which multiplies by 100, says 5; [revenue_growth_5y], with the
    same thresholds and the same value, is multiplied and scores 5. *)
Theorem cash_flow_growth_not_scaled :
  (forall s x,
     dict_get "cash_flow_growth" (quantitative_of s) = Some (Some x) ->
     PrimFloat.is_nan x = false ->
     factor_scored s "cash_flow_growth"
       (if x >? 15 then 5 else if x >? 10 then 3 else 0)) /\
  exists total percentage bd,
    multibagger_score_two_dim stock_growth_20_percent = Ok (total, percentage, bd) /\
    dict_get "cash_flow_growth" bd = Some 0 /\
    (0.2 * 100 >? 15) = true /\
    dict_get "revenue_growth_5y" bd = Some 5.
Proof.
  split.
  - intros s x Hget Hnan.
    apply (factor_scored_present s
             (mkFactor "cash_flow_growth" 0 false cash_flow_growth_score) x);
      [simpl; tauto | assumption | assumption].
  - eexists _, _, _. split; [apply multibagger_score_two_dim_spec |].
    repeat split; reflexivity.
Qed.

(** ** Missing values *)

Lemma missing_metric_default_score (quantitative : dict metric) f :
  In f factor_table ->
  metric_missing quantitative (factor_name f) = true ->
  get_val quantitative (factor_name f) (factor_default f) = Ok (factor_default f) /\
  factor_input quantitative f =
    (if factor_times_100 f then factor_default f * 100 else factor_default f).
Proof.
  intros Hf Hmiss. unfold factor_input.
  now rewrite get_val_ok, (metric_value_missing _ _ _ Hmiss).
Qed.

(** C4, as the code has it.  For every quantitative factor the default is 0,
    or [inf] for [de_ratio], [pe_ratio], [peg_ratio], [pb_ratio] and
    [ev_ebitda].  When the factor's metric is missing (key left out, [None]
    or NaN), [get_val] returns the default and the factor's score is its
    step function at the default.  A metric that is there and is not NaN,
    [inf] and [-inf] included, is returned as it is. *)
Theorem missing_metric_gets_default (quantitative : dict metric) (f : factor) :
  In f factor_table ->
  factor_default f = (if has_infinity_default (factor_name f) then np_inf else 0) /\
  (metric_missing quantitative (factor_name f) = true ->
   get_val quantitative (factor_name f) (factor_default f) = Ok (factor_default f) /\
   scored quantitative (factor_name f)
     (factor_step f (if factor_times_100 f then factor_default f * 100
                     else factor_default f))) /\
  (forall x,
     dict_get (factor_name f) quantitative = Some (Some x) ->
     PrimFloat.is_nan x = false ->
     get_val quantitative (factor_name f) (factor_default f) = Ok x).
Proof.
  intros Hf. split; [| split].
  - repeat (destruct Hf as [<- | Hf]; [reflexivity |]). destruct Hf.
  - intros Hmiss.
    destruct (missing_metric_default_score _ _ Hf Hmiss) as [Hval Hin].
    split; [exact Hval |]. rewrite <- Hin. now apply scored_table.
  - intros x Hget Hnan. now rewrite get_val_ok, (metric_value_present _ _ _ _ Hget Hnan).
Qed.

Lemma missing_metric_gets_default_witness :
  let quantitative := quantitative_of stock_unknown in
  let f := mkFactor "roe" 0 true roe_score in
  In f factor_table /\
  metric_missing quantitative "roe" = true /\
  get_val quantitative "roe" 0 = Ok 0 /\
  scored quantitative "roe" (roe_score (0 * 100)).
Proof.
  intros quantitative f.
  assert (Hf : In f factor_table) by (simpl; tauto).
  split; [exact Hf |]. split; [reflexivity |].
  exact (proj1 (proj2 (missing_metric_gets_default quantitative f Hf)) eq_refl).
Defined.

(** C4 as the claim words it fails for the infinities: [market_cap = inf] is
    not a finite number, yet [get_val] returns it and not the default 0, and
    the returned score is 0 and not the 5 of the default; [de_ratio = -inf]
    scores 5 and not the 0 of the default [inf]. *)
Lemma infinite_metric_is_not_defaulted :
  metric_not_finite (quantitative_of stock_infinite_market_cap) "market_cap" = true /\
  get_val (quantitative_of stock_infinite_market_cap) "market_cap" 0 = Ok infinity /\
  infinity <> 0 /\
  returned stock_infinite_market_cap "market_cap" 0 /\
  ~ returned stock_infinite_market_cap "market_cap" (market_cap_score 0) /\
  metric_not_finite (quantitative_of stock_negative_infinite_de_ratio) "de_ratio" = true /\
  get_val (quantitative_of stock_negative_infinite_de_ratio) "de_ratio" np_inf
    = Ok neg_infinity /\
  returned stock_negative_infinite_de_ratio "de_ratio" 5 /\
  ~ returned stock_negative_infinite_de_ratio "de_ratio" (de_ratio_score np_inf).
Proof.
  repeat split; try reflexivity.
  - apply float_eqb_false_neq; reflexivity.
  - apply returned_breakdown. reflexivity.
  - intros H. apply returned_inv in H. revert H.
    apply Some_float_neq; reflexivity.
  - apply returned_breakdown. reflexivity.
  - intros H. apply returned_inv in H. revert H.
    apply Some_float_neq; reflexivity.
Qed.

(** ** The boundary of [de_ratio] *)

(** C5, as the code has it.  A [de_ratio] of exactly 0.5 scores 3: it is
    not below 0.5, and it is below 1.  A [de_ratio] of 0.49999 scores 5. *)
Theorem de_ratio_boundary (s : stock) :
  (dict_get "de_ratio" (quantitative_of s) = Some (Some 0.5) ->
   factor_scored s "de_ratio" 3) /\
  (dict_get "de_ratio" (quantitative_of s) = Some (Some 0.49999) ->
   factor_scored s "de_ratio" 5).
Proof.
  assert (Hf : In (mkFactor "de_ratio" np_inf false de_ratio_score) factor_table)
    by (simpl; tauto).
  split; intros Hget; exact (factor_scored_present s _ _ Hf Hget eq_refl).
Qed.

Lemma de_ratio_boundary_witness :
  factor_scored stock_de_ratio_half "de_ratio" 3 /\
  factor_scored stock_de_ratio_below_half "de_ratio" 5.
Proof.
  split.
  - exact (proj1 (de_ratio_boundary stock_de_ratio_half) eq_refl).
  - exact (proj2 (de_ratio_boundary stock_de_ratio_below_half) eq_refl).
Defined.

(** C5 as the claim words it fails: with [de_ratio] equal to 0.5 the
    returned breakdown holds 3 for [de_ratio], not 0. *)
Lemma de_ratio_half_does_not_score_0 :
  exists total percentage bd,
    multibagger_score_two_dim stock_de_ratio_half = Ok (total, percentage, bd) /\
    dict_get "de_ratio" bd = Some 3 /\
    dict_get "de_ratio" bd <> Some 0.
Proof.
  eexists _, _, _. split; [apply multibagger_score_two_dim_spec |].
  split; [reflexivity | apply Some_float_neq; reflexivity].
Qed.

(** ** One entry for each quantitative factor *)

Ltac split_conditions :=
  repeat match goal with
         | |- context [if ?c then _ else _] => destruct c
         end.

(** Whatever number a step function is given, NaN or an infinity included,
    its score is one of the factor's few values. *)
Lemma factor_step_range f x :
  In f factor_table -> In (factor_step f x) (score_range (factor_name f)).
Proof.
  intros Hf.
  repeat (destruct Hf as [<- | Hf];
          [vm_compute; split_conditions; auto 10 |]).
  destruct Hf.
Qed.

(** C6, as the code has it.  For every input the function returns a
    breakdown that has exactly one entry for each of the 21 quantitative
    factor names, whether the metric is there or not; the score the
    factor's step function gives is in {0,3,5}, in {0,2,3,4,5} for
    [market_cap] and in {0,3,4,5} for [stock_price]; that score is the entry
    of the returned breakdown when the qualitative mapping has no key of
    the same name, and the entry is the caller's value when it has one. *)
Theorem quantitative_factor_entries (s : stock) (name : string) :
  In name quantitative_factors ->
  exists total percentage bd,
    multibagger_score_two_dim s = Ok (total, percentage, bd) /\
    count_occ string_dec (dict_keys bd) name = 1%nat /\
    exists v,
      scored (quantitative_of s) name v /\
      In v (score_range name) /\
      (dict_mem name (qualitative_of s) = false -> dict_get name bd = Some v) /\
      (forall v', dict_wf (qualitative_of s) -> In (name, v') (qualitative_of s) ->
                  dict_get name bd = Some v').
Proof.
  intros Hname. eexists _, _, _.
  split; [apply multibagger_score_two_dim_spec |].
  split; [now apply breakdown_count_one_factor |].
  rewrite <- factor_table_names in Hname.
  apply in_map_iff in Hname as (f & <- & Hf).
  exists (factor_step f (factor_input (quantitative_of s) f)).
  split; [now apply scored_table |].
  split; [now apply factor_step_range |]. split.
  - intros Hmem. rewrite breakdown_get_quantitative by assumption.
    now apply quantitative_entries_get.
  - intros v' Hwf Hin. now apply breakdown_get_qualitative.
Qed.

Lemma quantitative_factor_entries_witness :
  In "market_cap" quantitative_factors /\
  exists total percentage bd,
    multibagger_score_two_dim stock_infinite_market_cap = Ok (total, percentage, bd) /\
    count_occ string_dec (dict_keys bd) "market_cap" = 1%nat /\
    exists v,
      scored (quantitative_of stock_infinite_market_cap) "market_cap" v /\
      In v (score_range "market_cap") /\
      dict_get "market_cap" bd = Some v.
Proof.
  assert (H : In "market_cap" quantitative_factors) by (simpl; tauto).
  split; [exact H |].
  destruct (quantitative_factor_entries stock_infinite_market_cap "market_cap" H)
    as (total & percentage & bd & Hret & Hcount & v & Hscored & Hrange & Hget & _).
  exists total, percentage, bd. split; [exact Hret |]. split; [exact Hcount |].
  exists v. split; [exact Hscored |]. split; [exact Hrange |].
  exact (Hget eq_refl).
Defined.

(** C6 as the claim words it fails: with the qualitative mapping
    [{"roe": 7.5}] the returned breakdown holds 7.5 for the quantitative
    factor [roe], which is none of 0, 3 and 5. *)
Lemma qualitative_score_is_outside_the_range :
  In "roe" quantitative_factors /\
  exists total percentage bd,
    multibagger_score_two_dim stock_roe_out_of_range = Ok (total, percentage, bd) /\
    dict_get "roe" bd = Some 7.5 /\
    ~ In 7.5 [0; 3; 5] /\
    score_range "roe" = [0; 3; 5].
Proof.
  split; [simpl; tauto |].
  eexists _, _, _. split; [apply multibagger_score_two_dim_spec |].
  split; [reflexivity |]. split; [| reflexivity].
  intros [H | [H | [H | []]]]; revert H; apply float_eqb_false_neq; reflexivity.
Qed.

(** ** Qualitative overrides *)

(** C7.  Every key of the qualitative mapping is in the returned breakdown
    with the value the caller gave, whatever that value is; the record
    without metrics scored with [{"moat": 4}] returns [moat] with 4 at the
    end of a breakdown of 22 entries, total 17 and percentage 17/110*100. *)
Theorem qualitative_passed_through :
  (forall s k v,
     dict_wf (qualitative_of s) -> In (k, v) (qualitative_of s) ->
     returned s k v) /\
  multibagger_score_two_dim stock_moat =
    Ok (17, 17 / 110 * 100, all_missing_breakdown ++ [("moat", 4)]) /\
  len (all_missing_breakdown ++ [("moat", 4)]) = 22%Z /\
  max_possible_score (all_missing_breakdown ++ [("moat", 4)]) = (5 * 22)%Z.
Proof.
  split; [| repeat split; vm_compute; reflexivity].
  intros s k v Hwf Hin. apply returned_breakdown.
  now apply breakdown_get_qualitative.
Qed.

(** Values outside [0,5] pass through as well. *)
Lemma qualitative_passed_through_witness :
  let s := mkStock None (Some [("moat", 7.5); ("management", -1)]) in
  dict_wf (qualitative_of s) /\ returned s "management" (-1).
Proof.
  intros s.
  assert (Hwf : dict_wf (qualitative_of s)).
  { apply (NoDup_count_occ' string_dec). intros x Hx.
    repeat (destruct Hx as [<- | Hx]; [reflexivity |]). destruct Hx. }
  split; [exact Hwf |].
  apply (proj1 qualitative_passed_through s "management" (-1) Hwf).
  simpl. tauto.
Defined.

(** ** No error *)

(** [get_val] on any number: it returns unless the value is an int that
    [np.isnan] does not accept. *)
Lemma any_get_val_spec (quantitative : dict AnyNumber.metric) key default :
  AnyNumber.get_val quantitative key default =
  if AnyNumber.accepted (dict_get key quantitative)
  then Ok (AnyNumber.metric_value quantitative key default)
  else Raise TypeError.
Proof.
  unfold AnyNumber.get_val, AnyNumber.accepted, AnyNumber.metric_value,
    AnyNumber.np_isnan.
  destruct (dict_get key quantitative) as [[[x | n] |] |]; try reflexivity.
  destruct (AnyNumber.fits_64_bits n); reflexivity.
Qed.

Ltac accepted_or_raise quantitative name :=
  destruct (AnyNumber.accepted (dict_get name quantitative));
  [| split; [intros H; discriminate H | intros _; reflexivity]].

(** Lines 17-80 on any numbers: the 21 scores when [np.isnan] accepts each
    of the 21 metrics, and the [TypeError] of the first one it does not
    accept otherwise. *)
Lemma any_quantitative_scores_spec (quantitative : dict AnyNumber.metric) :
  (AnyNumber.all_accepted quantitative = true ->
   exists fs, AnyNumber.quantitative_scores quantitative = Ok fs) /\
  (AnyNumber.all_accepted quantitative = false ->
   AnyNumber.quantitative_scores quantitative = Raise TypeError).
Proof.
  unfold AnyNumber.quantitative_scores, AnyNumber.all_accepted.
  rewrite !any_get_val_spec.
  cbv beta iota zeta delta [forallb quantitative_factors].
  accepted_or_raise quantitative "market_cap".
  accepted_or_raise quantitative "stock_price".
  accepted_or_raise quantitative "eps_growth_5y".
  accepted_or_raise quantitative "roe".
  accepted_or_raise quantitative "roce".
  accepted_or_raise quantitative "operating_margin".
  accepted_or_raise quantitative "net_margin".
  accepted_or_raise quantitative "de_ratio".
  accepted_or_raise quantitative "interest_coverage".
  accepted_or_raise quantitative "current_ratio".
  accepted_or_raise quantitative "free_cash_flow".
  accepted_or_raise quantitative "revenue_growth_5y".
  accepted_or_raise quantitative "profit_growth_5y".
  accepted_or_raise quantitative "cash_flow_growth".
  accepted_or_raise quantitative "pe_ratio".
  accepted_or_raise quantitative "peg_ratio".
  accepted_or_raise quantitative "pb_ratio".
  accepted_or_raise quantitative "ev_ebitda".
  accepted_or_raise quantitative "liquidity".
  accepted_or_raise quantitative "promoter_holding".
  accepted_or_raise quantitative "promoter_holding_growth".
  split; [intros _; eexists; reflexivity | intros H; discriminate H].
Qed.

Lemma any_multibagger_score_two_dim_spec (s : AnyNumber.stock) :
  (AnyNumber.all_accepted (AnyNumber.quantitative_of s) = true ->
   exists total percentage bd,
     AnyNumber.multibagger_score_two_dim s = Ok (total, percentage, bd)) /\
  (AnyNumber.all_accepted (AnyNumber.quantitative_of s) = false ->
   AnyNumber.multibagger_score_two_dim s = Raise TypeError).
Proof.
  destruct (any_quantitative_scores_spec (AnyNumber.quantitative_of s)) as [Hok Hraise].
  unfold AnyNumber.multibagger_score_two_dim. split; intros H.
  - destruct (Hok H) as [fs ->]. cbv beta iota zeta delta [bind].
    rewrite aggregate_spec. eexists _, _, _. reflexivity.
  - now rewrite (Hraise H).
Qed.

(** *** Floats among the numbers *)

Lemma of_floats_get key (quantitative : dict metric) :
  dict_get key (of_floats quantitative) =
  option_map (option_map AnyNumber.PyFloat) (dict_get key quantitative).
Proof.
  induction quantitative as [| [k v] quantitative IH]; [reflexivity |].
  simpl. destruct (String.eqb key k); [reflexivity | exact IH].
Qed.

Lemma of_floats_accepted key (quantitative : dict metric) :
  AnyNumber.accepted (dict_get key (of_floats quantitative)) = true.
Proof.
  rewrite of_floats_get. now destruct (dict_get key quantitative) as [[x |] |].
Qed.

Lemma of_floats_all_accepted (quantitative : dict metric) :
  AnyNumber.all_accepted (of_floats quantitative) = true.
Proof.
  unfold AnyNumber.all_accepted. apply forallb_forall. intros name _.
  apply of_floats_accepted.
Qed.

Ltac same_score quantitative name :=
  unfold AnyNumber.metric_value, metric_value; rewrite of_floats_get;
  destruct (dict_get name quantitative) as [[x |] |]; simpl option_map;
  cbv beta iota; [destruct (PrimFloat.is_nan x) | |]; reflexivity.

(** On floats and [None] the 21 lines give the scores of
    [quantitative_scores]. *)
Lemma any_quantitative_scores_of_floats (quantitative : dict metric) :
  AnyNumber.quantitative_scores (of_floats quantitative)
  = quantitative_scores quantitative.
Proof.
  rewrite quantitative_scores_table.
  unfold AnyNumber.quantitative_scores.
  rewrite !any_get_val_spec, !of_floats_accepted.
  cbv beta iota zeta delta [bind].
  assert (E1 : AnyNumber.market_cap_score
                 (AnyNumber.metric_value (of_floats quantitative) "market_cap"
                    (AnyNumber.PyInt 0))
               = market_cap_score (metric_value quantitative "market_cap" 0))
    by same_score quantitative "market_cap".
  assert (E2 : AnyNumber.stock_price_score
                 (AnyNumber.metric_value (of_floats quantitative) "stock_price"
                    (AnyNumber.PyInt 0))
               = stock_price_score (metric_value quantitative "stock_price" 0))
    by same_score quantitative "stock_price".
  assert (E3 : AnyNumber.eps_growth_5y_score
                 (AnyNumber.py_mul_100
                    (AnyNumber.metric_value (of_floats quantitative) "eps_growth_5y"
                       (AnyNumber.PyInt 0)))
               = eps_growth_5y_score (metric_value quantitative "eps_growth_5y" 0 * 100))
    by same_score quantitative "eps_growth_5y".
  assert (E4 : AnyNumber.roe_score
                 (AnyNumber.py_mul_100
                    (AnyNumber.metric_value (of_floats quantitative) "roe"
                       (AnyNumber.PyInt 0)))
               = roe_score (metric_value quantitative "roe" 0 * 100))
    by same_score quantitative "roe".
  assert (E5 : AnyNumber.roce_score
                 (AnyNumber.py_mul_100
                    (AnyNumber.metric_value (of_floats quantitative) "roce"
                       (AnyNumber.PyInt 0)))
               = roce_score (metric_value quantitative "roce" 0 * 100))
    by same_score quantitative "roce".
  assert (E6 : AnyNumber.operating_margin_score
                 (AnyNumber.py_mul_100
                    (AnyNumber.metric_value (of_floats quantitative) "operating_margin"
                       (AnyNumber.PyInt 0)))
               = operating_margin_score
                   (metric_value quantitative "operating_margin" 0 * 100))
    by same_score quantitative "operating_margin".
  assert (E7 : AnyNumber.net_margin_score
                 (AnyNumber.py_mul_100
                    (AnyNumber.metric_value (of_floats quantitative) "net_margin"
                       (AnyNumber.PyInt 0)))
               = net_margin_score (metric_value quantitative "net_margin" 0 * 100))
    by same_score quantitative "net_margin".
  assert (E8 : AnyNumber.de_ratio_score
                 (AnyNumber.metric_value (of_floats quantitative) "de_ratio"
                    (AnyNumber.PyFloat np_inf))
               = de_ratio_score (metric_value quantitative "de_ratio" np_inf))
    by same_score quantitative "de_ratio".
  assert (E9 : AnyNumber.interest_coverage_score
                 (AnyNumber.metric_value (of_floats quantitative) "interest_coverage"
                    (AnyNumber.PyInt 0))
               = interest_coverage_score
                   (metric_value quantitative "interest_coverage" 0))
    by same_score quantitative "interest_coverage".
  assert (E10 : AnyNumber.current_ratio_score
                  (AnyNumber.metric_value (of_floats quantitative) "current_ratio"
                     (AnyNumber.PyInt 0))
                = current_ratio_score (metric_value quantitative "current_ratio" 0))
    by same_score quantitative "current_ratio".
  assert (E11 : AnyNumber.free_cash_flow_score
                  (AnyNumber.metric_value (of_floats quantitative) "free_cash_flow"
                     (AnyNumber.PyInt 0))
                = free_cash_flow_score (metric_value quantitative "free_cash_flow" 0))
    by same_score quantitative "free_cash_flow".
  assert (E12 : AnyNumber.revenue_growth_5y_score
                  (AnyNumber.py_mul_100
                     (AnyNumber.metric_value (of_floats quantitative) "revenue_growth_5y"
                        (AnyNumber.PyInt 0)))
                = revenue_growth_5y_score
                    (metric_value quantitative "revenue_growth_5y" 0 * 100))
    by same_score quantitative "revenue_growth_5y".
  assert (E13 : AnyNumber.profit_growth_5y_score
                  (AnyNumber.py_mul_100
                     (AnyNumber.metric_value (of_floats quantitative) "profit_growth_5y"
                        (AnyNumber.PyInt 0)))
                = profit_growth_5y_score
                    (metric_value quantitative "profit_growth_5y" 0 * 100))
    by same_score quantitative "profit_growth_5y".
  assert (E14 : AnyNumber.cash_flow_growth_score
                  (AnyNumber.metric_value (of_floats quantitative) "cash_flow_growth"
                     (AnyNumber.PyInt 0))
                = cash_flow_growth_score (metric_value quantitative "cash_flow_growth" 0))
    by same_score quantitative "cash_flow_growth".
  assert (E15 : AnyNumber.pe_ratio_score
                  (AnyNumber.metric_value (of_floats quantitative) "pe_ratio"
                     (AnyNumber.PyFloat np_inf))
                = pe_ratio_score (metric_value quantitative "pe_ratio" np_inf))
    by same_score quantitative "pe_ratio".
  assert (E16 : AnyNumber.peg_ratio_score
                  (AnyNumber.metric_value (of_floats quantitative) "peg_ratio"
                     (AnyNumber.PyFloat np_inf))
                = peg_ratio_score (metric_value quantitative "peg_ratio" np_inf))
    by same_score quantitative "peg_ratio".
  assert (E17 : AnyNumber.pb_ratio_score
                  (AnyNumber.metric_value (of_floats quantitative) "pb_ratio"
                     (AnyNumber.PyFloat np_inf))
                = pb_ratio_score (metric_value quantitative "pb_ratio" np_inf))
    by same_score quantitative "pb_ratio".
  assert (E18 : AnyNumber.ev_ebitda_score
                  (AnyNumber.metric_value (of_floats quantitative) "ev_ebitda"
                     (AnyNumber.PyFloat np_inf))
                = ev_ebitda_score (metric_value quantitative "ev_ebitda" np_inf))
    by same_score quantitative "ev_ebitda".
  assert (E19 : AnyNumber.liquidity_score
                  (AnyNumber.metric_value (of_floats quantitative) "liquidity"
                     (AnyNumber.PyInt 0))
                = liquidity_score (metric_value quantitative "liquidity" 0))
    by same_score quantitative "liquidity".
  assert (E20 : AnyNumber.promoter_holding_score
                  (AnyNumber.metric_value (of_floats quantitative) "promoter_holding"
                     (AnyNumber.PyInt 0))
                = promoter_holding_score (metric_value quantitative "promoter_holding" 0))
    by same_score quantitative "promoter_holding".
  assert (E21 : AnyNumber.promoter_holding_growth_score
                  (AnyNumber.metric_value (of_floats quantitative)
                     "promoter_holding_growth" (AnyNumber.PyInt 0))
                = promoter_holding_growth_score
                    (metric_value quantitative "promoter_holding_growth" 0))
    by same_score quantitative "promoter_holding_growth".
  rewrite E1, E2, E3, E4, E5, E6, E7, E8, E9, E10, E11, E12, E13, E14, E15, E16,
    E17, E18, E19, E20, E21.
  reflexivity.
Qed.

Lemma any_number_quantitative (s : stock) :
  AnyNumber.quantitative_of (any_number s) = of_floats (quantitative_of s).
Proof. destruct s as [[q |] ql]; reflexivity. Qed.

(** On floats and [None] the function on any numbers is the function. *)
Lemma any_number_same_result (s : stock) :
  AnyNumber.multibagger_score_two_dim (any_number s) = multibagger_score_two_dim s.
Proof.
  unfold AnyNumber.multibagger_score_two_dim, multibagger_score_two_dim.
  now rewrite any_number_quantitative, any_quantitative_scores_of_floats.
Qed.

(** C8, as the code has it.  [get_val] never applies [np.isnan] to [None],
    and for metrics that are left out, [None], NaN, infinite or finite
    floats, and any qualitative mapping of floats, the function returns a
    total, a percentage and a breakdown and raises nothing.  For metrics
    that may also be Python ints, it returns when each int under one of the
    21 factor names fits in 64 bits, and raises the [TypeError] of
    [np.isnan] when one does not. *)
Theorem multibagger_score_two_dim_total :
  (forall quantitative key default,
     exists x, get_val quantitative key default = Ok x) /\
  (forall s : stock,
     (exists total percentage bd,
        multibagger_score_two_dim s = Ok (total, percentage, bd)) /\
     (forall e, multibagger_score_two_dim s <> Raise e) /\
     AnyNumber.all_accepted (AnyNumber.quantitative_of (any_number s)) = true /\
     AnyNumber.multibagger_score_two_dim (any_number s) = multibagger_score_two_dim s) /\
  (forall s : AnyNumber.stock,
     (AnyNumber.all_accepted (AnyNumber.quantitative_of s) = true ->
      exists total percentage bd,
        AnyNumber.multibagger_score_two_dim s = Ok (total, percentage, bd)) /\
     (AnyNumber.all_accepted (AnyNumber.quantitative_of s) = false ->
      AnyNumber.multibagger_score_two_dim s = Raise TypeError)).
Proof.
  split; [| split].
  - intros quantitative key default. eexists. apply get_val_ok.
  - intros s. split; [| split; [| split]].
    + rewrite multibagger_score_two_dim_spec. eexists _, _, _. reflexivity.
    + rewrite multibagger_score_two_dim_spec. discriminate.
    + rewrite any_number_quantitative. apply of_floats_all_accepted.
    + apply any_number_same_result.
  - exact any_multibagger_score_two_dim_spec.
Qed.

(** Ints beside floats, as a data source returns them: a market
    capitalisation of 1500000000000 scores 3, a volume of 250000 scores 5
    and a growth given as the int 1 is 100 percent and scores 5. *)
Lemma multibagger_score_two_dim_total_witness :
  AnyNumber.all_accepted (AnyNumber.quantitative_of AnyNumber.stock_int_metrics) = true /\
  exists total percentage bd,
    AnyNumber.multibagger_score_two_dim AnyNumber.stock_int_metrics
      = Ok (total, percentage, bd) /\
    dict_get "market_cap" bd = Some 3 /\
    dict_get "liquidity" bd = Some 5 /\
    dict_get "eps_growth_5y" bd = Some 5.
Proof.
  split; [reflexivity |].
  destruct (proj1 (proj2 (proj2 multibagger_score_two_dim_total)
                     AnyNumber.stock_int_metrics) eq_refl)
    as (total & percentage & bd & Hret).
  exists total, percentage, bd. split; [exact Hret |].
  assert (Hbd : dict_get "market_cap" bd = Some 3 /\
                dict_get "liquidity" bd = Some 5 /\
                dict_get "eps_growth_5y" bd = Some 5).
  { pose proof (f_equal (fun r => match r with
                                  | Ok (_, _, b) =>
                                      (dict_get "market_cap" b, dict_get "liquidity" b,
                                       dict_get "eps_growth_5y" b)
                                  | Raise _ => (None, None, None)
                                  end) Hret) as H.
    vm_compute in H.
    repeat split.
    - exact (eq_sym (f_equal (fun t => fst (fst t)) H)).
    - exact (eq_sym (f_equal (fun t => snd (fst t)) H)).
    - exact (eq_sym (f_equal snd H)). }
  exact Hbd.
Defined.

(** C8 as the claim words it fails: a market capitalisation of [10**20], a
    real number, is an int that does not fit in 64 bits; [np.isnan] raises
    [TypeError] on it, and so do [get_val] and the function. *)
Lemma huge_int_metric_raises_TypeError :
  AnyNumber.np_isnan (Some (AnyNumber.PyInt (10 ^ 20))) = Raise TypeError /\
  AnyNumber.get_val (AnyNumber.quantitative_of AnyNumber.stock_huge_market_cap)
    "market_cap" (AnyNumber.PyInt 0) = Raise TypeError /\
  AnyNumber.multibagger_score_two_dim AnyNumber.stock_huge_market_cap = Raise TypeError.
Proof. repeat split; vm_compute; reflexivity. Qed.

(** ** An unknown change of promoter holding *)

(** C9, as the code has it.  When [promoter_holding_growth] is missing
    (key left out, [None] or NaN), [get_val] gives the default 0, which
    meets the [== 0] tier, and the factor scores 3; the returned breakdown
    holds this 3 when the qualitative mapping has no key
    [promoter_holding_growth], and the caller's value when it has one. *)
Theorem unknown_promoter_holding_growth_scores_3 (s : stock) :
  metric_missing (quantitative_of s) "promoter_holding_growth" = true ->
  get_val (quantitative_of s) "promoter_holding_growth" 0 = Ok 0 /\
  promoter_holding_growth_score 0 = 3 /\
  scored (quantitative_of s) "promoter_holding_growth" 3 /\
  (dict_mem "promoter_holding_growth" (qualitative_of s) = false ->
   returned s "promoter_holding_growth" 3) /\
  (forall v, dict_wf (qualitative_of s) ->
             In ("promoter_holding_growth", v) (qualitative_of s) ->
             returned s "promoter_holding_growth" v).
Proof.
  intros Hmiss.
  assert (Hf : In (mkFactor "promoter_holding_growth" 0 false
                     promoter_holding_growth_score) factor_table)
    by (simpl; tauto).
  destruct (missing_metric_default_score _ _ Hf Hmiss) as [Hval Hin].
  split; [exact Hval |]. split; [reflexivity |].
  pose proof (factor_scored_table s _ Hf) as [Hscored Hret].
  rewrite Hin in Hscored, Hret.
  split; [exact Hscored |]. split; [exact Hret |].
  intros v Hwf Hv. apply returned_breakdown. now apply breakdown_get_qualitative.
Qed.

Lemma unknown_promoter_holding_growth_scores_3_witness :
  metric_missing (quantitative_of stock_unknown) "promoter_holding_growth" = true /\
  scored (quantitative_of stock_unknown) "promoter_holding_growth" 3 /\
  returned stock_unknown "promoter_holding_growth" 3.
Proof.
  split; [reflexivity |].
  destruct (unknown_promoter_holding_growth_scores_3 stock_unknown eq_refl)
    as (_ & _ & Hscored & Hret & _).
  split; [exact Hscored | exact (Hret eq_refl)].
Defined.

(** C9 as the claim words it fails: with [promoter_holding_growth] absent
    from the metrics and the qualitative mapping
    [{"promoter_holding_growth": 0}], the returned breakdown holds 0 for the
    factor, and not 3. *)
Lemma overridden_promoter_holding_growth_scores_0 :
  metric_missing (quantitative_of stock_growth_override) "promoter_holding_growth" = true /\
  returned stock_growth_override "promoter_holding_growth" 0 /\
  ~ returned stock_growth_override "promoter_holding_growth" 3.
Proof.
  split; [reflexivity |]. split.
  - apply returned_breakdown. reflexivity.
  - intros H. apply returned_inv in H. revert H.
    apply Some_float_neq; reflexivity.
Qed.

(** ** A qualitative key with the name of a quantitative factor *)



(** ** A record with six metrics *)

(** With [market_cap = 50e9], [stock_price = 300], [roe = 0.18],
    [de_ratio = 0.3], [pe_ratio = 12] and [promoter_holding = 55], the other
    metrics missing and no qualitative overrides, these six factors score 5
    each, [promoter_holding_growth] scores 3 and the other 14 score 0: the
    total is 33 and the percentage 33/105*100. *)
Theorem six_metrics_score_33 :
  multibagger_score_two_dim stock_six_metrics =
    Ok (33, 33 / 105 * 100,
        map (fun name =>
               (name,
                if existsb (String.eqb name)
                     ["market_cap"; "stock_price"; "roe"; "de_ratio"; "pe_ratio";
                      "promoter_holding"]
                then 5
                else if String.eqb name "promoter_holding_growth" then 3 else 0))
            quantitative_factors).
Proof. rewrite multibagger_score_two_dim_spec. vm_compute. reflexivity. Qed.

(** ** Strict thresholds *)

(** Every threshold is strict: a value equal to a threshold falls into
    the tier below it. *)
Theorem thresholds_are_strict :
  (market_cap_score 100e9 = 4 /\ market_cap_score 500e9 = 3 /\
   market_cap_score 2000e9 = 2 /\ market_cap_score 5000e9 = 0) /\
  (stock_price_score 500 = 4 /\ stock_price_score 1000 = 3 /\
   stock_price_score 2000 = 0) /\
  (eps_growth_5y_score 20 = 3 /\ eps_growth_5y_score 10 = 0) /\
  (roe_score 15 = 3 /\ roe_score 10 = 0) /\
  (roce_score 15 = 3 /\ roce_score 10 = 0) /\
  (operating_margin_score 20 = 3 /\ operating_margin_score 10 = 0) /\
  (net_margin_score 15 = 3 /\ net_margin_score 7 = 0) /\
  (de_ratio_score 0.5 = 3 /\ de_ratio_score 1 = 0) /\
  (interest_coverage_score 3 = 3 /\ interest_coverage_score 1.5 = 0) /\
  (current_ratio_score 1.5 = 3 /\ current_ratio_score 1.2 = 0) /\
  free_cash_flow_score 0 = 0 /\
  (revenue_growth_5y_score 15 = 3 /\ revenue_growth_5y_score 10 = 0) /\
  (profit_growth_5y_score 20 = 3 /\ profit_growth_5y_score 10 = 0) /\
  (cash_flow_growth_score 15 = 3 /\ cash_flow_growth_score 10 = 0) /\
  (pe_ratio_score 15 = 3 /\ pe_ratio_score 25 = 0) /\
  (peg_ratio_score 1 = 3 /\ peg_ratio_score 2 = 0) /\
  (pb_ratio_score 1.5 = 3 /\ pb_ratio_score 2.5 = 0) /\
  (ev_ebitda_score 10 = 3 /\ ev_ebitda_score 15 = 0) /\
  (liquidity_score 100000 = 3 /\ liquidity_score 50000 = 0) /\
  (promoter_holding_score 50 = 3 /\ promoter_holding_score 30 = 0) /\
  (promoter_holding_growth_score 0 = 3 /\
   promoter_holding_growth_score (-1) = 0 /\ promoter_holding_growth_score 1 = 5).
Proof. repeat split; reflexivity. Qed.

(** * Further properties of the scoring engine *)

(** ** The order of binary64 numbers *)

Ltac sf_cases :=
  repeat match goal with
         | |- context [Z.compare ?a ?b] => destruct (Z.compare_spec a b)
         | |- context [Pos.compare ?a ?b] => destruct (Pos.compare_spec a b)
         end.

Lemma SFleb_ltb_trans x y z :
  SFleb x y = true -> SFltb y z = true -> SFltb x z = true.
Proof.
  unfold SFleb, SFltb, SFcompare.
  destruct x as [[|] | [|] | | [|] mx ex], y as [[|] | [|] | | [|] my ey],
           z as [[|] | [|] | | [|] mz ez];
    try (intros; reflexivity); try (intros; discriminate);
    change (Pos.compare_cont Eq) with Pos.compare;
    sf_cases; simpl; intros; subst; try reflexivity; try discriminate; lia.
Qed.

Lemma SFltb_leb_trans x y z :
  SFltb x y = true -> SFleb y z = true -> SFltb x z = true.
Proof.
  unfold SFleb, SFltb, SFcompare.
  destruct x as [[|] | [|] | | [|] mx ex], y as [[|] | [|] | | [|] my ey],
           z as [[|] | [|] | | [|] mz ez];
    try (intros; reflexivity); try (intros; discriminate);
    change (Pos.compare_cont Eq) with Pos.compare;
    sf_cases; simpl; intros; subst; try reflexivity; try discriminate; lia.
Qed.

Lemma leb_ltb_trans x y z :
  (x <=? y) = true -> (y <? z) = true -> (x <? z) = true.
Proof. rewrite !FloatAxioms.leb_spec, !FloatAxioms.ltb_spec. apply SFleb_ltb_trans. Qed.

Lemma ltb_leb_trans x y z :
  (x <? y) = true -> (y <=? z) = true -> (x <? z) = true.
Proof. rewrite !FloatAxioms.leb_spec, !FloatAxioms.ltb_spec. apply SFltb_leb_trans. Qed.

(** A number at least a zero is a zero or is above zero. *)
Lemma zero_leb x y :
  (x =? 0) = true -> (x <=? y) = true -> (0 <? y) = true \/ (y =? 0) = true.
Proof.
  rewrite !FloatAxioms.eqb_spec, FloatAxioms.leb_spec, FloatAxioms.ltb_spec.
  change (Prim2SF 0) with (S754_zero false).
  unfold SFeqb, SFleb, SFltb, SFcompare.
  destruct (Prim2SF x) as [[|] | [|] | | [|] mx ex],
           (Prim2SF y) as [[|] | [|] | | [|] my ey];
    intros; try discriminate; auto.
Qed.

(** A number above a positive number is not a zero. *)
Lemma ltb_not_zero c x :
  (0 <? c) = true -> (c <? x) = true -> (x =? 0) = false.
Proof.
  rewrite !FloatAxioms.ltb_spec, FloatAxioms.eqb_spec.
  change (Prim2SF 0) with (S754_zero false).
  unfold SFeqb, SFltb, SFcompare.
  destruct (Prim2SF c) as [[|] | [|] | | [|] mc ec],
           (Prim2SF x) as [[|] | [|] | | [|] mx ex];
    intros; try discriminate; reflexivity.
Qed.

(** ** Better numbers never score lower *)

Ltac split_conditions_eqn :=
  repeat match goal with
         | |- context [if ?c then _ else _] =>
             let E := fresh "E" in destruct c eqn:E
         end.

Ltac order_close :=
  first
    [ reflexivity
    | exfalso;
      match goal with
      | Hle : (?a <=? ?b) = true, Hlt : (?b <? ?c) = true, Hn : (?a <? ?c) = false |- _ =>
          rewrite (leb_ltb_trans a b c Hle Hlt) in Hn; discriminate
      | Hlt : (?c <? ?a) = true, Hle : (?a <=? ?b) = true, Hn : (?c <? ?b) = false |- _ =>
          rewrite (ltb_leb_trans c a b Hlt Hle) in Hn; discriminate
      | He : (?a =? 0) = true, Hle : (?a <=? ?b) = true,
        H1 : (0 <? ?b) = false, H2 : (?b =? 0) = false |- _ =>
          destruct (zero_leb a b He Hle); congruence
      end ].

Ltac step_cases Hf H :=
  repeat (destruct Hf as [<- | Hf];
          [ vm_compute in H; try discriminate;
            cbv [factor_step market_cap_score stock_price_score eps_growth_5y_score
                 roe_score roce_score operating_margin_score net_margin_score
                 de_ratio_score interest_coverage_score current_ratio_score
                 free_cash_flow_score revenue_growth_5y_score profit_growth_5y_score
                 cash_flow_growth_score pe_ratio_score peg_ratio_score pb_ratio_score
                 ev_ebitda_score liquidity_score promoter_holding_score
                 promoter_holding_growth_score gtb];
            split_conditions_eqn; order_close |]);
  destruct Hf.

(** The seven step functions that test [<] never score a smaller number
    lower. *)
Lemma lower_is_better_step f x y :
  In f factor_table -> lower_is_better (factor_name f) = true ->
  (y <=? x) = true -> (factor_step f x <=? factor_step f y) = true.
Proof. intros Hf H Hle. step_cases Hf H. Qed.

(** The fourteen step functions that test [>] never score a greater number
    lower. *)
Lemma higher_is_better_step f x y :
  In f factor_table -> lower_is_better (factor_name f) = false ->
  (x <=? y) = true -> (factor_step f x <=? factor_step f y) = true.
Proof. intros Hf H Hle. step_cases Hf H. Qed.

(** X1.  Each of the 21 step functions is monotone: for a factor that tests
    [<] a number that is not greater never scores lower, and for a factor
    that tests [>] a number that is not smaller never scores lower. *)
Theorem step_functions_are_monotone (f : factor) (x y : float) :
  In f factor_table ->
  at_least_as_good f x y = true ->
  (factor_step f x <=? factor_step f y) = true.
Proof.
  intros Hf. unfold at_least_as_good.
  destruct (lower_is_better (factor_name f)) eqn:E; intros H.
  - now apply lower_is_better_step.
  - now apply higher_is_better_step.
Qed.

Lemma step_functions_are_monotone_witness :
  let f := mkFactor "de_ratio" np_inf false de_ratio_score in
  In f factor_table /\
  at_least_as_good f 0.8 0.3 = true /\
  (de_ratio_score 0.8 <=? de_ratio_score 0.3) = true.
Proof.
  intros f.
  assert (Hf : In f factor_table) by (simpl; tauto).
  split; [exact Hf |]. split; [reflexivity |].
  exact (step_functions_are_monotone f 0.8 0.3 Hf eq_refl).
Defined.

(** ** Sums of scores are exact *)

Lemma in_range a n :
  (0 <= a <= Z.of_nat n)%Z -> In a (map Z.of_nat (seq 0 (S n))).
Proof.
  intros H. rewrite <- (Z2Nat.id a) by lia. apply in_map, in_seq. lia.
Qed.

(** Adding a score to a sum of at most 100 is exact. *)
Lemma add_points_exact a k :
  (0 <= a <= 100)%Z -> (0 <= k <= 5)%Z ->
  float_of_int a + float_of_int k = float_of_int (a + k).
Proof.
  intros Ha Hk.
  assert (T : forallb
                (fun a => forallb
                            (fun k => PrimFloat.Leibniz.eqb
                                        (float_of_int a + float_of_int k)
                                        (float_of_int (a + k)))
                            (map Z.of_nat (seq 0 6)))
                (map Z.of_nat (seq 0 101)) = true)
    by (vm_compute; reflexivity).
  rewrite forallb_forall in T. specialize (T a (in_range a 100 Ha)).
  rewrite forallb_forall in T. specialize (T k (in_range k 5 Hk)).
  now apply FloatAxioms.Leibniz.eqb_spec.
Qed.

(** Totals and percentages over 21 factors grow with the integer total. *)
Lemma total_and_percentage_order n m :
  (0 <= n <= m)%Z -> (m <= 105)%Z ->
  (0 <=? float_of_int n) = true /\
  (float_of_int n <=? float_of_int m) = true /\
  (float_of_int m <=? 105) = true /\
  (0 <=? float_of_int n / 105 * 100) = true /\
  (float_of_int n / 105 * 100 <=? float_of_int m / 105 * 100) = true /\
  (float_of_int m / 105 * 100 <=? 100) = true.
Proof.
  intros Hn Hm.
  assert (T : forallb
                (fun n => forallb
                            (fun m =>
                               if (n <=? m)%Z
                               then (0 <=? float_of_int n)
                                    && (float_of_int n <=? float_of_int m)
                                    && (float_of_int m <=? 105)
                                    && (0 <=? float_of_int n / 105 * 100)
                                    && (float_of_int n / 105 * 100
                                        <=? float_of_int m / 105 * 100)
                                    && (float_of_int m / 105 * 100 <=? 100)
                               else true)
                            (map Z.of_nat (seq 0 106)))
                (map Z.of_nat (seq 0 106)) = true)
    by (vm_compute; reflexivity).
  rewrite forallb_forall in T. specialize (T n (in_range n 105 ltac:(lia))).
  rewrite forallb_forall in T. specialize (T m (in_range m 105 ltac:(lia))).
  replace (n <=? m)%Z with true in T by (symmetry; apply Z.leb_le; lia).
  repeat (apply andb_prop in T; destruct T as [T ?]). tauto.
Qed.

Lemma score_range_five name v : In v (score_range name) -> In v five_scores.
Proof.
  unfold score_range, five_scores.
  destruct (String.eqb name "market_cap"); [tauto |].
  destruct (String.eqb name "stock_price"); simpl; tauto.
Qed.

Ltac compute_points :=
  repeat match goal with
         | |- context [score_points ?v] =>
             let z := eval vm_compute in (score_points v) in
             change (score_points v) with z
         end.

Lemma score_points_exact v :
  In v five_scores ->
  v = float_of_int (score_points v) /\ (0 <= score_points v <= 5)%Z.
Proof.
  intros H. repeat (destruct H as [<- | H]; [compute_points; split; [reflexivity | lia] |]).
  destruct H.
Qed.

Lemma score_points_le v w :
  In v five_scores -> In w five_scores -> (v <=? w) = true ->
  (score_points v <= score_points w)%Z.
Proof.
  intros Hv Hw Hle.
  destruct Hv as [<- | [<- | [<- | [<- | [<- | []]]]]];
    destruct Hw as [<- | [<- | [<- | [<- | [<- | []]]]]];
    vm_compute in Hle; try discriminate; compute_points; lia.
Qed.

Lemma fold_add_exact l : forall a,
  (0 <= a)%Z -> (a + 5 * Z.of_nat (List.length l) <= 105)%Z ->
  Forall (fun v => In v five_scores) l ->
  fold_left PrimFloat.add l (float_of_int a) = float_of_int (a + points_total l) /\
  (0 <= points_total l <= 5 * Z.of_nat (List.length l))%Z.
Proof.
  unfold points_total.
  induction l as [| v l IH]; intros a Ha Hlen Hall.
  - simpl. rewrite Z.add_0_r. split; [reflexivity | lia].
  - inversion Hall as [| ? ? Hv Hl]; subst.
    destruct (score_points_exact v Hv) as [Ev Hk].
    simpl List.length in Hlen. simpl fold_left. simpl map. simpl fold_right.
    rewrite Ev at 1. rewrite add_points_exact by lia.
    destruct (IH (a + score_points v)%Z ltac:(lia) ltac:(lia) Hl) as [E Hs].
    rewrite E. split; [f_equal; lia |].
    simpl List.length. lia.
Qed.

Lemma quantitative_entries_values quantitative :
  dict_values (quantitative_entries quantitative) =
  map (fun f => factor_step f (factor_input quantitative f)) factor_table.
Proof. unfold dict_values, quantitative_entries. now rewrite map_map. Qed.

Lemma quantitative_entries_five quantitative :
  Forall (fun v => In v five_scores) (dict_values (quantitative_entries quantitative)).
Proof.
  rewrite quantitative_entries_values. apply Forall_forall. intros v Hv.
  apply in_map_iff in Hv as (f & <- & Hf).
  apply (score_range_five (factor_name f)). now apply factor_step_range.
Qed.

(** Without qualitative entries the function returns the integer total of
    the 21 scores and its share of 105. *)
Lemma multibagger_score_two_dim_points s :
  qualitative_of s = [] ->
  let n := points_total (dict_values (quantitative_entries (quantitative_of s))) in
  (0 <= n <= 105)%Z /\
  multibagger_score_two_dim s =
    Ok (float_of_int n, float_of_int n / 105 * 100,
        quantitative_entries (quantitative_of s)).
Proof.
  intros Hq n.
  destruct (fold_add_exact (dict_values (quantitative_entries (quantitative_of s))) 0
              ltac:(lia) ltac:(rewrite quantitative_entries_values, length_map;
                               simpl; lia)
              (quantitative_entries_five _)) as [E Hn].
  rewrite quantitative_entries_values, length_map in Hn. simpl List.length in Hn.
  rewrite <- quantitative_entries_values in Hn. fold n in Hn.
  split; [lia |].
  rewrite multibagger_score_two_dim_spec.
  assert (Hbd : breakdown s = quantitative_entries (quantitative_of s))
    by (unfold breakdown; now rewrite Hq).
  assert (Es : py_sum (dict_values (quantitative_entries (quantitative_of s)))
               = float_of_int n) by exact E.
  rewrite Hbd, Es. reflexivity.
Qed.

(** X2.  Without qualitative entries the total is a whole number from 0 to
    105 and the percentage lies between 0 and 100; a record with every
    factor in its lowest tier returns 0 and 0, a record with every factor in
    its highest tier returns 105 and 100. *)
Theorem quantitative_total_is_bounded :
  (forall s,
     qualitative_of s = [] ->
     exists n bd,
       (0 <= n <= 105)%Z /\
       multibagger_score_two_dim s =
         Ok (float_of_int n, float_of_int n / 105 * 100, bd) /\
       (0 <=? float_of_int n) = true /\
       (float_of_int n <=? 105) = true /\
       (0 <=? float_of_int n / 105 * 100) = true /\
       (float_of_int n / 105 * 100 <=? 100) = true) /\
  (exists bd, multibagger_score_two_dim stock_worst = Ok (0, 0, bd)) /\
  (exists bd, multibagger_score_two_dim stock_best = Ok (105, 100, bd)).
Proof.
  split; [| split].
  - intros s Hq. destruct (multibagger_score_two_dim_points s Hq) as [Hn Hret].
    eexists _, _. split; [exact Hn |]. split; [exact Hret |].
    destruct (total_and_percentage_order _ _ (conj (proj1 Hn) (Z.le_refl _)) (proj2 Hn))
      as (H1 & _ & H2 & H3 & _ & H4).
    tauto.
  - eexists. rewrite multibagger_score_two_dim_spec. vm_compute. reflexivity.
  - eexists. rewrite multibagger_score_two_dim_spec. vm_compute. reflexivity.
Qed.

Lemma quantitative_total_is_bounded_witness :
  qualitative_of stock_six_metrics = [] /\
  exists n bd,
    (0 <= n <= 105)%Z /\
    multibagger_score_two_dim stock_six_metrics =
      Ok (float_of_int n, float_of_int n / 105 * 100, bd) /\
    (float_of_int n / 105 * 100 <=? 100) = true.
Proof.
  split; [reflexivity |].
  destruct (proj1 quantitative_total_is_bounded stock_six_metrics eq_refl)
    as (n & bd & Hn & Hret & _ & _ & _ & Hp).
  exists n, bd. tauto.
Defined.

Lemma points_total_le (g h : factor -> float) l :
  (forall f, In f l -> (score_points (g f) <= score_points (h f))%Z) ->
  (points_total (map g l) <= points_total (map h l))%Z.
Proof.
  unfold points_total. induction l as [| f l IH]; intros H.
  - simpl. lia.
  - simpl. specialize (H f (or_introl eq_refl)) as Hf.
    assert (Hl : forall f0, In f0 l ->
                            (score_points (g f0) <= score_points (h f0))%Z)
      by (intros f0 H0; apply H; now right).
    specialize (IH Hl). lia.
Qed.

(** X3.  Between two records without qualitative entries, when for every
    factor the number its step function receives in the second record is at
    least as good as in the first, the second total and the second
    percentage are not lower. *)
Theorem better_metrics_never_lower_the_score (s s' : stock) :
  qualitative_of s = [] -> qualitative_of s' = [] ->
  forallb (fun f => at_least_as_good f (factor_input (quantitative_of s) f)
                                       (factor_input (quantitative_of s') f))
          factor_table = true ->
  exists total percentage bd total' percentage' bd',
    multibagger_score_two_dim s = Ok (total, percentage, bd) /\
    multibagger_score_two_dim s' = Ok (total', percentage', bd') /\
    (total <=? total') = true /\
    (percentage <=? percentage') = true.
Proof.
  intros Hq Hq' Hall. rewrite forallb_forall in Hall.
  destruct (multibagger_score_two_dim_points s Hq) as [Hn Hret].
  destruct (multibagger_score_two_dim_points s' Hq') as [Hn' Hret'].
  eexists _, _, _, _, _, _. split; [exact Hret |]. split; [exact Hret' |].
  assert (Hle : (points_total (dict_values (quantitative_entries (quantitative_of s)))
                 <= points_total (dict_values (quantitative_entries (quantitative_of s'))))%Z).
  { rewrite !quantitative_entries_values. apply points_total_le. intros f Hf.
    apply score_points_le.
    - apply (score_range_five (factor_name f)). now apply factor_step_range.
    - apply (score_range_five (factor_name f)). now apply factor_step_range.
    - specialize (Hall f Hf). unfold at_least_as_good in Hall.
      destruct (lower_is_better (factor_name f)) eqn:E.
      + now apply lower_is_better_step.
      + now apply higher_is_better_step. }
  destruct (total_and_percentage_order _ _ (conj (proj1 Hn) Hle) (proj2 Hn'))
    as (_ & H1 & _ & _ & H2 & _).
  tauto.
Qed.

Lemma better_metrics_never_lower_the_score_witness :
  exists total percentage bd total' percentage' bd',
    multibagger_score_two_dim stock_six_weaker_metrics = Ok (total, percentage, bd) /\
    multibagger_score_two_dim stock_six_metrics = Ok (total', percentage', bd') /\
    (total <=? total') = true /\
    (percentage <=? percentage') = true.
Proof.
  apply (better_metrics_never_lower_the_score
           stock_six_weaker_metrics stock_six_metrics);
    reflexivity.
Defined.

(** ** Only the 21 metrics are read *)

(** X4.  Two inputs whose metrics agree under the 21 factor names and whose
    qualitative mappings are the same get the same result: other keys of
    the metrics dictionary and the order of its keys are never read. *)
Theorem only_factor_metrics_are_read (s s' : stock) :
  (forall name, In name quantitative_factors ->
                dict_get name (quantitative_of s) = dict_get name (quantitative_of s')) ->
  qualitative_of s = qualitative_of s' ->
  multibagger_score_two_dim s = multibagger_score_two_dim s'.
Proof.
  intros Hget Hq.
  assert (He : quantitative_entries (quantitative_of s)
               = quantitative_entries (quantitative_of s')).
  { unfold quantitative_entries. apply map_ext_in. intros f Hf.
    unfold factor_entry, factor_input, metric_value.
    rewrite Hget; [reflexivity |].
    rewrite <- factor_table_names. now apply in_map. }
  rewrite !multibagger_score_two_dim_spec. unfold breakdown.
  now rewrite He, Hq.
Qed.

Lemma only_factor_metrics_are_read_witness :
  multibagger_score_two_dim stock_six_metrics_and_more
  = multibagger_score_two_dim stock_six_metrics.
Proof.
  apply only_factor_metrics_are_read; [| reflexivity].
  intros name H.
  repeat (destruct H as [<- | H]; [reflexivity |]). destruct H.
Defined.

(** ** Qualitative entries with new names *)

Lemma dict_set_new {V : Type} k (v : V) d :
  dict_mem k d = false -> dict_set k v d = d ++ [(k, v)].
Proof.
  induction d as [| [k' v'] d IH]; intros H; [reflexivity |].
  rewrite dict_mem_cons in H. apply orb_false_elim in H as [Hk Hd].
  simpl. rewrite Hk. now rewrite IH.
Qed.

Lemma add_qualitative_new qualitative : forall fs,
  dict_wf qualitative ->
  forallb (fun k => negb (dict_mem k fs)) (dict_keys qualitative) = true ->
  add_qualitative qualitative fs = fs ++ qualitative.
Proof.
  induction qualitative as [| [k v] qualitative IH]; intros fs Hwf Hnew.
  - unfold add_qualitative. simpl. now rewrite app_nil_r.
  - inversion Hwf as [| ? ? Hnot Hwf']; subst.
    simpl in Hnew. apply andb_prop in Hnew as [Hk Hrest].
    apply negb_true_iff in Hk.
    rewrite add_qualitative_cons, (dict_set_new k v fs Hk), IH.
    + now rewrite <- app_assoc.
    + exact Hwf'.
    + apply forallb_forall. intros k' Hk'. rewrite forallb_forall in Hrest.
      specialize (Hrest k' Hk'). rewrite negb_true_iff in Hrest |- *.
      rewrite <- (dict_set_new k v fs Hk), dict_mem_set, Hrest, orb_false_r.
      apply String.eqb_neq. intros ->. contradiction.
Qed.

(** X5.  When no qualitative key is the name of a quantitative factor, the
    returned breakdown is the 21 factor entries, in the order of the source,
    followed by the qualitative entries in the caller's order; it has 21
    entries more than the qualitative mapping; and when the qualitative
    scores are whole numbers that are not negative, the total is exactly
    the sum of the 21 scores plus the sum of the qualitative scores. *)
Theorem qualitative_entries_are_appended (s : stock) :
  dict_wf (qualitative_of s) ->
  forallb (fun k => negb (is_quantitative_factor k)) (dict_keys (qualitative_of s))
    = true ->
  exists fs total percentage bd,
    quantitative_scores (quantitative_of s) = Ok fs /\
    multibagger_score_two_dim s = Ok (total, percentage, bd) /\
    bd = fs ++ qualitative_of s /\
    dict_keys bd = quantitative_factors ++ dict_keys (qualitative_of s) /\
    len bd = (21 + len (qualitative_of s))%Z /\
    (forallb is_count (dict_values (qualitative_of s)) = true ->
     (whole_total (dict_values (qualitative_of s)) < 2 ^ 52)%Z ->
     total = float_of_int (whole_total (dict_values fs)
                           + whole_total (dict_values (qualitative_of s)))).
Proof.
  intros Hwf Hnew.
  assert (Hbd : breakdown s
                = quantitative_entries (quantitative_of s) ++ qualitative_of s).
  { unfold breakdown. apply add_qualitative_new; [exact Hwf |].
    exact Hnew. }
  eexists _, _, _, _. split; [apply quantitative_scores_table |].
  split; [apply multibagger_score_two_dim_spec |].
  split; [exact Hbd |]. split; [| split].
  - rewrite Hbd. unfold dict_keys. rewrite map_app. reflexivity.
  - rewrite Hbd. unfold len. rewrite length_app, quantitative_entries_length. lia.
  - intros Hq Hlt. rewrite (proj2 (breakdown_counts s Hq Hlt)).
    rewrite Hbd. unfold dict_values. now rewrite map_app, whole_total_app.
Qed.

Lemma qualitative_entries_are_appended_witness :
  exists fs total percentage bd,
    quantitative_scores (quantitative_of stock_two_qualitative) = Ok fs /\
    multibagger_score_two_dim stock_two_qualitative = Ok (total, percentage, bd) /\
    bd = fs ++ [("moat", 4); ("management", 2)] /\
    dict_keys bd = quantitative_factors ++ ["moat"; "management"] /\
    len bd = 23%Z /\
    total = float_of_int (whole_total (dict_values fs) + 6).
Proof.
  destruct (qualitative_entries_are_appended stock_two_qualitative)
    as (fs & total & percentage & bd & Hfs & Hret & Hbd & Hkeys & Hlen & Hsum).
  - apply (NoDup_count_occ' string_dec). intros x Hx.
    repeat (destruct Hx as [<- | Hx]; [reflexivity |]). destruct Hx.
  - reflexivity.
  - exists fs, total, percentage, bd.
    split; [exact Hfs |]. split; [exact Hret |]. split; [exact Hbd |].
    split; [exact Hkeys |]. split; [exact Hlen |].
    exact (Hsum eq_refl eq_refl).
Defined.

(** ** NaN never reaches a threshold *)

Lemma shr_1_nonneg mrs : (0 <= shr_m mrs)%Z -> (0 <= shr_m (shr_1 mrs))%Z.
Proof.
  destruct mrs as [m r b]. destruct m as [| p | p]; simpl; intros H;
    try destruct p; simpl; lia.
Qed.

Lemma iter_shr_1_nonneg n : forall mrs,
  (0 <= shr_m mrs)%Z -> (0 <= shr_m (@SpecFloat.iter_pos shr_record shr_1 n mrs))%Z.
Proof.
  induction n as [n IH | n IH |]; intros mrs H; simpl.
  - apply IH, IH, shr_1_nonneg, H.
  - apply IH, IH, H.
  - apply shr_1_nonneg, H.
Qed.

Lemma shr_fexp_nonneg m e l :
  (0 <= m)%Z -> (0 <= shr_m (fst (shr_fexp prec emax m e l)))%Z.
Proof.
  intros H. unfold shr_fexp, shr.
  assert (H0 : (0 <= shr_m (shr_record_of_loc m l))%Z)
    by (destruct l as [| []]; exact H).
  destruct (fexp prec emax (Zdigits2 m + e) - e)%Z; simpl;
    [assumption | now apply iter_shr_1_nonneg | assumption].
Qed.

Lemma round_nearest_even_nonneg m l :
  (0 <= m)%Z -> (0 <= round_nearest_even m l)%Z.
Proof.
  intros H. unfold round_nearest_even.
  destruct l as [| []]; try destruct (Z.even m); lia.
Qed.

Lemma binary_round_aux_not_nan sx mx ex lx :
  (0 <= mx)%Z -> binary_round_aux prec emax sx mx ex lx <> S754_nan.
Proof.
  intros H. unfold binary_round_aux.
  pose proof (shr_fexp_nonneg mx ex lx H) as H1.
  destruct (shr_fexp prec emax mx ex lx) as [mrs' e']. simpl in H1.
  pose proof (shr_fexp_nonneg _ e' loc_Exact
                (round_nearest_even_nonneg _ (loc_of_shr_record mrs') H1)) as H2.
  destruct (shr_fexp prec emax _ e' loc_Exact) as [mrs'' e'']. simpl in H2.
  destruct (shr_m mrs''); [discriminate | | lia].
  destruct (e'' <=? emax - prec)%Z; discriminate.
Qed.

Lemma SFmul_finite_not_nan x s m e :
  x <> S754_nan -> SFmul prec emax x (S754_finite s m e) <> S754_nan.
Proof.
  intros H. destruct x as [sx | sx | | sx mx ex]; simpl;
    [discriminate | discriminate | congruence |].
  apply binary_round_aux_not_nan. lia.
Qed.

Lemma is_nan_Prim2SF x : PrimFloat.is_nan x = false <-> Prim2SF x <> S754_nan.
Proof.
  unfold Prim2SF. destruct (PrimFloat.is_nan x); split; try congruence.
  intros _. destruct (is_zero x); [discriminate |].
  destruct (is_infinity x); [discriminate |].
  destruct (Z.frexp x) as [r ex].
  destruct (shr_fexp _ _ _ _ _) as [mrs e']. destruct (shr_m mrs); discriminate.
Qed.

Lemma times_100_not_nan x :
  PrimFloat.is_nan x = false -> PrimFloat.is_nan (x * 100) = false.
Proof.
  rewrite !is_nan_Prim2SF, mul_spec. intros H.
  assert (E : exists s m e, Prim2SF 100 = S754_finite s m e)
    by (vm_compute; eauto).
  destruct E as (s & m & e & ->). now apply SFmul_finite_not_nan.
Qed.

Lemma metric_value_not_nan (quantitative : dict metric) key default :
  PrimFloat.is_nan default = false ->
  PrimFloat.is_nan (metric_value quantitative key default) = false.
Proof.
  intros Hd. unfold metric_value.
  destruct (dict_get key quantitative) as [[x |] |]; try exact Hd.
  destruct (PrimFloat.is_nan x) eqn:E; [exact Hd | exact E].
Qed.

(** X6.  [get_val] never returns NaN when its default is not NaN, and the
    number each of the 21 step functions receives, after the multiplication
    by 100 where there is one, is never NaN, whatever the metrics hold. *)
Theorem no_nan_reaches_a_threshold (quantitative : dict metric) :
  (forall key default x,
     PrimFloat.is_nan default = false ->
     get_val quantitative key default = Ok x -> PrimFloat.is_nan x = false) /\
  (forall f, In f factor_table ->
             PrimFloat.is_nan (factor_input quantitative f) = false).
Proof.
  split.
  - intros key default x Hd Hget. rewrite get_val_ok in Hget.
    assert (Hx : metric_value quantitative key default = x)
      by exact (f_equal (fun r => match r with Ok y => y | Raise _ => x end) Hget).
    rewrite <- Hx. now apply metric_value_not_nan.
  - intros f Hf. unfold factor_input.
    assert (Hd : PrimFloat.is_nan (factor_default f) = false)
      by (repeat (destruct Hf as [<- | Hf]; [reflexivity |]); destruct Hf).
    pose proof (metric_value_not_nan quantitative (factor_name f) _ Hd) as Hv.
    destruct (factor_times_100 f); [now apply times_100_not_nan | exact Hv].
Qed.

Lemma no_nan_reaches_a_threshold_witness :
  get_val (quantitative_of stock_unknown) "roe" 0 = Ok 0 /\
  PrimFloat.is_nan
    (factor_input (quantitative_of stock_unknown) (mkFactor "roe" 0 true roe_score))
  = false.
Proof.
  split; [reflexivity |].
  apply (proj2 (no_nan_reaches_a_threshold (quantitative_of stock_unknown))).
  simpl. tauto.
Defined.

(** * Properties of the callers *)

(** ** [dict.update] *)

Section DictUpdateFacts.
Context {V : Type}.
Implicit Types (d other : dict V) (k : string) (v : V).

Lemma dict_update_cons d k v other :
  dict_update d ((k, v) :: other) = dict_update (dict_set k v d) other.
Proof. reflexivity. Qed.

Lemma dict_update_get_other k other : forall d,
  dict_mem k other = false -> dict_get k (dict_update d other) = dict_get k d.
Proof.
  induction other as [| [k' v'] other IH]; intros d Hmem.
  - reflexivity.
  - rewrite dict_mem_cons in Hmem. apply orb_false_elim in Hmem as [Hk Hmem].
    rewrite dict_update_cons, IH by assumption.
    apply dict_get_set_other. now apply String.eqb_neq.
Qed.

Lemma dict_update_get k v other : forall d,
  dict_wf other -> In (k, v) other -> dict_get k (dict_update d other) = Some v.
Proof.
  induction other as [| [k' v'] other IH]; intros d Hwf Hin.
  - destruct Hin.
  - inversion Hwf as [| ? ? Hnot Hwf']; subst.
    rewrite dict_update_cons. destruct Hin as [Heq | Hin].
    + inversion Heq; subst.
      rewrite dict_update_get_other by now apply dict_mem_false.
      apply dict_get_set_same.
    + now apply IH.
Qed.

Lemma dict_get_Some_In k v d : dict_get k d = Some v -> In (k, v) d.
Proof.
  induction d as [| [k' v'] d IH]; simpl; [discriminate |].
  destruct (String.eqb k k') eqn:E.
  - apply String.eqb_eq in E. subst k'. intros H. left.
    now rewrite (f_equal (fun o => match o with Some x => x | None => v end) H).
  - intros H. right. now apply IH.
Qed.
End DictUpdateFacts.

Lemma metrics_values_keys metrics : dict_keys (metrics_values metrics) = dict_keys metrics.
Proof. unfold dict_keys, metrics_values. rewrite map_map. reflexivity. Qed.

Lemma metrics_values_In k v metrics :
  In (k, v) metrics -> In (k, of_metric v) (metrics_values metrics).
Proof.
  intros H. unfold metrics_values.
  now apply (in_map (fun item => (fst item, of_metric (snd item))) _ (k, v)).
Qed.

(** The columns of the 21 scores. *)
Lemma with_suffix_entries quantitative :
  with_suffix (quantitative_entries quantitative) =
  map (fun item => ((fst item ++ " (s)")%string, VNum (snd item)))
      (quantitative_entries quantitative).
Proof. reflexivity. Qed.

Lemma with_suffix_keys quantitative :
  dict_keys (with_suffix (quantitative_entries quantitative)) = score_columns.
Proof. reflexivity. Qed.

Lemma score_columns_NoDup : NoDup score_columns.
Proof.
  apply (NoDup_count_occ' string_dec). intros x Hx.
  repeat (destruct Hx as [<- | Hx]; [reflexivity |]). destruct Hx.
Qed.

Lemma with_suffix_get quantitative f :
  In f factor_table ->
  dict_get (factor_name f ++ " (s)")%string
    (with_suffix (quantitative_entries quantitative)) =
  Some (VNum (factor_step f (factor_input quantitative f))).
Proof.
  intros Hf. repeat (destruct Hf as [<- | Hf]; [reflexivity |]). destruct Hf.
Qed.

(** ** The promoter test *)

(** The comparison never meets [None]: [and] stops at a falsy value, which
    it returns as it is. *)
Lemma has_high_promoter_holding_ok metrics threshold :
  (0 <? threshold) = true ->
  let promoter_holding := metrics_get "promoter_holding" metrics (VNum 0) in
  exists high,
    has_high_promoter_holding promoter_holding threshold = Ok high /\
    truthy high = passes_promoter_test metrics threshold /\
    (truthy promoter_holding = false -> high = promoter_holding) /\
    (truthy promoter_holding = true -> high = VBool true \/ high = VBool false).
Proof.
  intros Ht. unfold has_high_promoter_holding, passes_promoter_test,
    metrics_get, metrics_number.
  destruct (dict_get "promoter_holding" metrics) as [[x |] |]; simpl.
  - destruct (x =? 0) eqn:E; simpl.
    + exists (VNum x). simpl. rewrite E. simpl. repeat split; try discriminate.
      unfold gtb. destruct (threshold <? x) eqn:E'; [| reflexivity].
      now rewrite (ltb_not_zero threshold x Ht E') in E.
    + exists (VBool (x >? threshold)). repeat split; try discriminate.
      intros _. destruct (x >? threshold); auto.
  - exists VNone. repeat split; discriminate.
  - exists (VNum 0). repeat split; discriminate.
Qed.

(** ** One symbol of [run_scanner] *)

(** The flag is computed without an exception. *)
Lemma scanner_is_penny_stock_returns price market_cap metrics :
  exists flag, scanner_is_penny_stock price market_cap metrics = Ok flag.
Proof.
  destruct (has_high_promoter_holding_ok metrics scanner_PROMOTER_HOLDING_THRESHOLD
              eq_refl) as (high & Hok & _).
  unfold scanner_is_penny_stock. rewrite Hok. eexists. reflexivity.
Qed.

(** X7.  [is_penny_stock] is truthy exactly when the price is below 100,
    the market capitalisation is below 500 crore and [promoter_holding] is
    there and above 50.  It is not always a Boolean: when the first two
    tests pass and [promoter_holding] is [None], zero or missing, the flag
    is that falsy value itself (the [None], the zero, or the default 0). *)
Theorem penny_stock_flag (price market_cap : float) (metrics : dict metric) :
  let promoter_holding := metrics_get "promoter_holding" metrics (VNum 0) in
  let low_and_small := (price <? 100) && (market_cap <? 5000000000) in
  exists flag,
    scanner_is_penny_stock price market_cap metrics = Ok flag /\
    truthy flag = low_and_small && passes_promoter_test metrics 50 /\
    (low_and_small = true -> truthy promoter_holding = false ->
     flag = promoter_holding) /\
    (low_and_small = false \/ truthy promoter_holding = true ->
     flag = VBool true \/ flag = VBool false).
Proof.
  intros promoter_holding low_and_small.
  destruct (has_high_promoter_holding_ok metrics scanner_PROMOTER_HOLDING_THRESHOLD
              eq_refl) as (high & Hok & Htruthy & Hfalsy & Hbool).
  fold promoter_holding in Hok, Hfalsy, Hbool.
  unfold scanner_is_penny_stock. fold promoter_holding. rewrite Hok.
  cbv beta iota zeta delta [bind]. eexists. split; [reflexivity |].
  subst low_and_small. unfold py_and.
  change scanner_STOCK_PRICE_THRESHOLD with 100.
  change scanner_MARKET_CAP_THRESHOLD with 5000000000.
  destruct (price <? 100), (market_cap <? 5000000000); simpl.
  - split; [exact Htruthy |]. split; [intros _; exact Hfalsy |].
    intros [H | H]; [discriminate | now apply Hbool].
  - split; [reflexivity |]. split; [discriminate | auto].
  - split; [reflexivity |]. split; [discriminate | auto].
  - split; [reflexivity |]. split; [discriminate | auto].
Qed.

Lemma penny_stock_flag_witness :
  scanner_is_penny_stock 50 1000000000 metrics_zero_promoter = Ok (VNum 0) /\
  scanner_is_penny_stock 50 1000000000 metrics_backtest_pass = Ok (VBool true).
Proof.
  destruct (penny_stock_flag 50 1000000000 metrics_zero_promoter)
    as (flag & Hflag & _ & Hfalsy & _).
  split; [| reflexivity].
  rewrite Hflag. f_equal. now apply Hfalsy.
Defined.

(** Where a symbol with a price and a market capitalisation ends. *)
Lemma scan_symbol_stored symbol price market_cap metrics flag :
  scanner_is_penny_stock price market_cap metrics = Ok flag ->
  let s := mkStock (Some metrics) (Some []) in
  let percentage :=
    py_sum (dict_values (breakdown s)) / float_of_int (5 * len (breakdown s)) * 100 in
  scan_symbol symbol (Some price) (Some market_cap) metrics =
  Stored
    (dict_update
       (dict_update
          [ ("Symbol", VStr (symbol ++ ".NS"));
            ("Price", VNum price);
            ("Market Cap (Cr)", VNum (market_cap / 10000000));
            ("Score (%)", VNum percentage);
            ("Penny_stock", flag) ]
          (metrics_values metrics))
       (with_suffix (quantitative_entries metrics))).
Proof.
  intros Hflag. cbv zeta. unfold scan_symbol. rewrite Hflag.
  cbv beta iota zeta delta [bind].
  rewrite (multibagger_score_two_dim_spec (mkStock (Some metrics) (Some []))).
  reflexivity.
Qed.

(** X8.  A symbol without a price or without a market capitalisation is
    skipped; every other symbol is scored and stored, penny stock or not,
    and no input leads to the error row.  The stored row holds, for each of
    the 21 factors, the factor's score of the breakdown in the column named
    after the factor with [" (s)"] appended. *)
Theorem scan_symbol_always_scores (symbol : string) (price market_cap : option float)
    (metrics : dict metric) :
  (forall ticker e,
     scan_symbol symbol price market_cap metrics <> Failed ticker e) /\
  (price = None \/ market_cap = None ->
   scan_symbol symbol price market_cap metrics = Skipped) /\
  (price <> None -> market_cap <> None ->
   exists row total percentage bd,
     scan_symbol symbol price market_cap metrics = Stored row /\
     multibagger_score_two_dim (mkStock (Some metrics) (Some []))
       = Ok (total, percentage, bd) /\
     forall name v,
       In name quantitative_factors -> dict_get name bd = Some v ->
       dict_get (name ++ " (s)")%string row = Some (VNum v)).
Proof.
  destruct price as [price |], market_cap as [market_cap |];
    try (split; [discriminate | split; [reflexivity | intros; congruence]]).
  destruct (scanner_is_penny_stock_returns price market_cap metrics)
    as (flag & Hflag).
  rewrite (scan_symbol_stored symbol price market_cap metrics flag Hflag).
  split; [discriminate |]. split; [intros [H | H]; discriminate |].
  intros _ _. eexists _, _, _, _. split; [reflexivity |].
  split; [apply multibagger_score_two_dim_spec |].
  intros name v Hname Hget.
  rewrite <- factor_table_names in Hname.
  apply in_map_iff in Hname as (f & <- & Hf).
  change (breakdown (mkStock (Some metrics) (Some [])))
    with (quantitative_entries metrics) in Hget.
  rewrite (quantitative_entries_get metrics f Hf) in Hget.
  rewrite <- (f_equal (fun o => match o with Some x => x | None => v end) Hget).
  apply dict_update_get.
  - unfold dict_wf. rewrite with_suffix_keys. exact score_columns_NoDup.
  - apply dict_get_Some_In. now apply with_suffix_get.
Qed.

Lemma scan_symbol_always_scores_witness :
  exists row total percentage bd,
    scan_symbol "ABC" (Some 50) (Some 1000000000) metrics_zero_promoter = Stored row /\
    multibagger_score_two_dim (mkStock (Some metrics_zero_promoter) (Some []))
      = Ok (total, percentage, bd) /\
    dict_get "roe (s)" row = Some (VNum 5).
Proof.
  destruct (proj2 (proj2 (scan_symbol_always_scores "ABC" (Some 50) (Some 1000000000)
                            metrics_zero_promoter)))
    as (row & total & percentage & bd & Hrow & Hret & Hcol);
    try discriminate.
  exists row, total, percentage, bd. split; [exact Hrow |]. split; [exact Hret |].
  apply (Hcol "roe" 5); [simpl; tauto |].
  rewrite multibagger_score_two_dim_spec in Hret.
  rewrite <- (f_equal (fun r => match r with Ok (_, _, b) => b | Raise _ => bd end) Hret).
  reflexivity.
Defined.

Lemma existsb_eqb_In k l : existsb (String.eqb k) l = true <-> In k l.
Proof.
  rewrite existsb_exists. split.
  - intros (x & Hx & He). apply String.eqb_eq in He. now subst.
  - intros H. exists k. split; [assumption | apply String.eqb_refl].
Qed.

(** X9.  When the keys of the metrics are pairwise distinct and none of them
    is one of the five leading columns or a score column, the stored row
    holds the ticker, the price, the market capitalisation in crore, the
    percentage of the scoring function and the flag under the five leading
    columns, and every metric under its own key, beside its score under the
    key with [" (s)"]. *)
Theorem result_row_columns (symbol : string) (price market_cap : float)
    (metrics : dict metric) :
  dict_wf metrics ->
  forallb (fun k => negb (existsb (String.eqb k) (scanner_columns ++ score_columns)))
          (dict_keys metrics) = true ->
  exists row flag total percentage bd,
    scan_symbol symbol (Some price) (Some market_cap) metrics = Stored row /\
    scanner_is_penny_stock price market_cap metrics = Ok flag /\
    multibagger_score_two_dim (mkStock (Some metrics) (Some []))
      = Ok (total, percentage, bd) /\
    dict_get "Symbol" row = Some (VStr (symbol ++ ".NS")) /\
    dict_get "Price" row = Some (VNum price) /\
    dict_get "Market Cap (Cr)" row = Some (VNum (market_cap / 10000000)) /\
    dict_get "Score (%)" row = Some (VNum percentage) /\
    dict_get "Penny_stock" row = Some flag /\
    forall k v, dict_get k metrics = Some v -> dict_get k row = Some (of_metric v).
Proof.
  intros Hwf Hkeys. rewrite forallb_forall in Hkeys.
  destruct (scanner_is_penny_stock_returns price market_cap metrics)
    as (flag & Hflag).
  eexists _, flag, _, _, _.
  split; [apply (scan_symbol_stored symbol price market_cap metrics flag Hflag) |].
  split; [exact Hflag |].
  split; [apply multibagger_score_two_dim_spec |].
  assert (Hfixed : forall c, In c scanner_columns ->
                             dict_mem c (metrics_values metrics) = false).
  { intros c Hc. apply dict_mem_false. rewrite metrics_values_keys. intros Hin.
    specialize (Hkeys c Hin). apply negb_true_iff in Hkeys.
    rewrite existsb_app in Hkeys. apply orb_false_elim in Hkeys as [Hk _].
    apply (proj2 (existsb_eqb_In c scanner_columns)) in Hc. congruence. }
  assert (Hcol : forall c, In c scanner_columns ->
                           dict_mem c (with_suffix (quantitative_entries metrics)) = false).
  { intros c Hc. repeat (destruct Hc as [<- | Hc]; [reflexivity |]). destruct Hc. }
  repeat split;
    try (rewrite dict_update_get_other by (apply Hcol; simpl; tauto);
         rewrite dict_update_get_other by (apply Hfixed; simpl; tauto);
         reflexivity).
  intros k v Hget. apply dict_get_Some_In in Hget.
  assert (Hk : In k (dict_keys metrics))
    by (change k with (fst (k, v)); now apply in_map).
  specialize (Hkeys k Hk). apply negb_true_iff in Hkeys.
  rewrite existsb_app in Hkeys. apply orb_false_elim in Hkeys as [_ Hscore].
  rewrite dict_update_get_other.
  - apply dict_update_get.
    + unfold dict_wf. now rewrite metrics_values_keys.
    + now apply metrics_values_In.
  - unfold dict_mem. rewrite with_suffix_keys. exact Hscore.
Qed.

Lemma result_row_columns_witness :
  exists row,
    scan_symbol "ABC" (Some 50) (Some 1000000000) metrics_zero_promoter = Stored row /\
    dict_get "Penny_stock" row = Some (VNum 0) /\
    dict_get "roe" row = Some (VNum 0.2).
Proof.
  assert (Hwf : dict_wf metrics_zero_promoter).
  { apply (NoDup_count_occ' string_dec). intros x Hx.
    repeat (destruct Hx as [<- | Hx]; [reflexivity |]). destruct Hx. }
  destruct (result_row_columns "ABC" 50 1000000000 metrics_zero_promoter Hwf eq_refl)
    as (row & flag & total & percentage & bd & Hrow & Hflag & _ & _ & _ & _ & _
        & Hpenny & Hmetrics).
  exists row. split; [exact Hrow |]. split.
  - rewrite Hpenny.
    now rewrite <- (f_equal (fun r => match r with Ok x => x | Raise _ => flag end)
                      Hflag).
  - exact (Hmetrics "roe" (Some 0.2) eq_refl).
Defined.

(** ** One symbol of the backtest *)

(** A number below another number is not NaN. *)
Lemma ltb_true_not_nan x c : (x <? c) = true -> PrimFloat.is_nan x = false.
Proof.
  intros H. apply is_nan_Prim2SF. intros Hnan.
  rewrite FloatAxioms.ltb_spec, Hnan in H. discriminate.
Qed.

(** X10.  The backtest stores a row only for a record whose own
    [stock_price] is below 2200, whose own [market_cap] is below 10500
    crore and whose [promoter_holding] is there and above 20; in every row
    it stores the score of [market_cap] is 5 or 4, never 3, 2 or 0. *)
Theorem backtest_stores_only_filtered (symbol : string) (metrics : option (dict metric))
    (row : dict pyval) :
  backtest_symbol symbol metrics = Stored row ->
  exists m price market_cap,
    metrics = Some m /\
    metrics_number "stock_price" m = Some price /\
    metrics_number "market_cap" m = Some market_cap /\
    (price <? 2200) = true /\
    (market_cap <? 105000000000) = true /\
    passes_promoter_test m 20 = true /\
    (dict_get "market_cap (s)" row = Some (VNum 5) \/
     dict_get "market_cap (s)" row = Some (VNum 4)).
Proof.
  unfold backtest_symbol. destruct metrics as [[| e ms] |]; try discriminate.
  set (m := e :: ms).
  destruct (metrics_number "stock_price" m) as [price |] eqn:Hprice;
    [| discriminate].
  destruct (metrics_number "market_cap" m) as [market_cap |] eqn:Hcap;
    [| discriminate].
  change backtest_STOCK_PRICE_THRESHOLD with 2200.
  change backtest_MARKET_CAP_THRESHOLD with 105000000000.
  destruct (price <? 2200) eqn:Hp; [| discriminate].
  destruct (market_cap <? 105000000000) eqn:Hc; [| discriminate].
  cbv beta iota zeta delta [andb].
  destruct (has_high_promoter_holding_ok m backtest_PROMOTER_HOLDING_THRESHOLD eq_refl)
    as (high & Hok & Htruthy & _).
  rewrite Hok. cbv beta iota zeta delta [bind].
  destruct (truthy high) eqn:Hhigh; [| discriminate].
  match goal with
  | |- context [multibagger_score_two_dim ?s] =>
      rewrite (multibagger_score_two_dim_spec s)
  end.
  intros Hrow.
  exists m, price, market_cap.
  repeat (split; [first [reflexivity | assumption] |]).
  split; [symmetry; exact Htruthy |].
  assert (Erow : dict_get "market_cap (s)" row
                 = Some (VNum (market_cap_score market_cap))).
  { assert (Hf : In (mkFactor "market_cap" 0 false market_cap_score) factor_table)
      by (simpl; tauto).
    pose proof (with_suffix_get m _ Hf) as Hget.
    unfold factor_input, metric_value in Hget. simpl factor_name in Hget.
    unfold metrics_number in Hcap.
    destruct (dict_get "market_cap" m) as [[x |] |]; try discriminate.
    assert (x = market_cap)
      by exact (f_equal (fun o => match o with Some y => y | None => x end) Hcap).
    subst x. rewrite (ltb_true_not_nan _ _ Hc) in Hget. simpl in Hget.
    rewrite <- (f_equal (fun o => match o with Stored r => r | _ => row end) Hrow).
    apply dict_update_get; [exact score_columns_NoDup |].
    apply dict_get_Some_In. exact Hget. }
  rewrite Erow. unfold market_cap_score.
  destruct (market_cap <? 100e9); [now left | right].
  assert (Hlt : (market_cap <? 500e9) = true)
    by (apply (ltb_leb_trans market_cap 105000000000 500e9 Hc); reflexivity).
  now rewrite Hlt.
Qed.

Lemma backtest_stores_only_filtered_witness :
  exists row,
    backtest_symbol "ABC" (Some metrics_backtest_pass) = Stored row /\
    (dict_get "market_cap (s)" row = Some (VNum 5) \/
     dict_get "market_cap (s)" row = Some (VNum 4)).
Proof.
  eexists. split; [vm_compute; reflexivity |].
  destruct (backtest_stores_only_filtered "ABC" (Some metrics_backtest_pass) _
              ltac:(vm_compute; reflexivity))
    as (m & price & market_cap & _ & _ & _ & _ & _ & _ & H).
  exact H.
Defined.

(** * Properties of the converter *)

(** ** Positions in a list *)

Lemma enumerate_from_In {A : Type} (l : list A) : forall n i x,
  In (i, x) (enumerate_from n l) <-> (n <= i)%nat /\ nth_error l (i - n) = Some x.
Proof.
  induction l as [| y l IH]; intros n i x; simpl.
  - split; [tauto | intros [_ H]]. destruct (i - n)%nat; discriminate.
  - rewrite IH. split.
    + intros [H | [Hle H]].
      * inversion H; subst. split; [lia |]. now rewrite Nat.sub_diag.
      * split; [lia |]. replace (i - n)%nat with (S (i - S n)) by lia. exact H.
    + intros [Hle H]. destruct (i - n)%nat as [| k] eqn:E.
      * left. simpl in H. inversion H; subst. f_equal. lia.
      * right. split; [lia |]. simpl in H.
        replace (i - S n)%nat with k by lia. exact H.
Qed.

Lemma enumerate_In {A : Type} (l : list A) i x :
  In (i, x) (enumerate l) <-> nth_error l i = Some x.
Proof.
  unfold enumerate. rewrite enumerate_from_In, Nat.sub_0_r.
  split; [tauto | intros H; split; [lia | exact H]].
Qed.

Lemma enumerate_from_filter {A : Type} (f : A -> bool) (l : list A) : forall n,
  map snd (filter (fun p => f (snd p)) (enumerate_from n l)) = filter f l.
Proof.
  induction l as [| x l IH]; intros n; simpl; [reflexivity |].
  destruct (f x); simpl; now rewrite IH.
Qed.

Lemma enumerate_from_snd {A : Type} (l : list A) : forall n,
  map snd (enumerate_from n l) = l.
Proof. induction l as [| x l IH]; intros n; simpl; [| rewrite IH]; reflexivity. Qed.

Lemma list_index_nth x l : forall i,
  list_index x l = Some i -> nth_error l i = Some x.
Proof.
  induction l as [| y l IH]; intros i; simpl; [discriminate |].
  destruct (String.eqb x y) eqn:E.
  - apply String.eqb_eq in E. subst. intros H. inversion H. reflexivity.
  - destruct (list_index x l) as [k |]; simpl; [| discriminate].
    intros H. inversion H. simpl. now apply IH.
Qed.

(** [index] gives the first position. *)
Lemma list_index_first x l : forall i j,
  list_index x l = Some i -> (j < i)%nat -> nth_error l j <> Some x.
Proof.
  induction l as [| y l IH]; intros i j; simpl; [discriminate |].
  destruct (String.eqb x y) eqn:E.
  - intros H. inversion H. lia.
  - destruct (list_index x l) as [k |] eqn:Ek; simpl; [| discriminate].
    intros H Hlt. inversion H; subst. destruct j as [| j]; simpl.
    + apply String.eqb_neq in E. congruence.
    + apply (IH k); [reflexivity | lia].
Qed.

Lemma list_index_In x l : In x l -> exists i, list_index x l = Some i.
Proof.
  induction l as [| y l IH]; simpl; [tauto |].
  intros H. destruct (String.eqb x y) eqn:E; [eauto |].
  destruct H as [-> | H]; [now rewrite String.eqb_refl in E |].
  destruct (IH H) as [i ->]. simpl. eauto.
Qed.

Lemma list_index_NoDup x l i :
  NoDup l -> nth_error l i = Some x -> list_index x l = Some i.
Proof.
  intros Hnd Hnth.
  destruct (list_index_In x l (nth_error_In _ _ Hnth)) as [k Hk].
  rewrite Hk. f_equal.
  apply (proj1 (NoDup_nth_error l) Hnd).
  - apply nth_error_Some. rewrite (list_index_nth _ _ _ Hk). discriminate.
  - now rewrite (list_index_nth _ _ _ Hk).
Qed.

(** ** The columns that go *)

Lemma index_to_remove headers i :
  In i (indices_to_remove headers) <->
  exists col, In col (columns_to_remove headers) /\ list_index col headers = Some i.
Proof.
  unfold indices_to_remove. rewrite in_flat_map. split.
  - intros (col & Hcol & Hi). exists col. split; [exact Hcol |].
    destruct (list_index col headers) as [k |]; [| destruct Hi].
    destruct Hi as [-> | []]. reflexivity.
  - intros (col & Hcol & Hi). exists col. split; [exact Hcol |].
    rewrite Hi. now left.
Qed.

Lemma column_to_remove headers h :
  In h headers ->
  (In h (columns_to_remove headers) <-> removable_column h = true).
Proof.
  intros Hin. unfold columns_to_remove, removable_column. simpl.
  rewrite filter_In, orb_true_iff, String.eqb_eq. intuition congruence.
Qed.

Lemma existsb_nat_In i l : existsb (Nat.eqb i) l = true <-> In i l.
Proof.
  rewrite existsb_exists. split.
  - intros (x & Hx & He). apply Nat.eqb_eq in He. now subst.
  - intros H. exists i. split; [assumption | apply Nat.eqb_refl].
Qed.

(** With distinct headers, the headers that stay are those the test of
    lines 11-14 does not name. *)
Lemma filtered_headers_NoDup headers :
  NoDup headers ->
  filtered_headers headers = filter (fun h => negb (removable_column h)) headers.
Proof.
  intros Hnd. unfold filtered_headers, without_indices, enumerate.
  rewrite <- (enumerate_from_filter (fun h => negb (removable_column h)) headers 0).
  f_equal. apply filter_ext_in. intros [i h] Hin. simpl.
  apply (enumerate_In headers) in Hin. f_equal.
  apply eq_true_iff_eq. rewrite existsb_nat_In, index_to_remove.
  rewrite <- (column_to_remove headers h (nth_error_In _ _ Hin)). split.
  - intros (col & Hcol & Hi). apply list_index_nth in Hi.
    assert (col = h) by congruence. now subst.
  - intros Hh. exists h. split; [exact Hh | now apply list_index_NoDup].
Qed.

(** X11.  When the header names are pairwise distinct, the converter keeps
    exactly the columns whose header is not ["Conclusion"] and does not end,
    once stripped, with ["(s)"]; it keeps them in their order. *)
Theorem converter_keeps_the_other_columns (headers : list string) :
  NoDup headers ->
  filtered_headers headers = filter (fun h => negb (removable_column h)) headers /\
  NoDup (filtered_headers headers) /\
  (forall h, In h (filtered_headers headers) <->
             In h headers /\ h <> "Conclusion"
             /\ ends_with "(s)" (strip h) = false).
Proof.
  intros Hnd. pose proof (filtered_headers_NoDup headers Hnd) as E.
  split; [exact E |]. rewrite E. split; [now apply NoDup_filter |].
  intros h. rewrite filter_In, negb_true_iff. unfold removable_column.
  rewrite orb_false_iff, String.eqb_neq. tauto.
Qed.

Lemma converter_keeps_the_other_columns_witness :
  filtered_headers ["Symbol"; "roe"; "roe (s)"; "Conclusion"; " pe (s) "]
  = ["Symbol"; "roe"].
Proof.
  assert (Hnd : NoDup ["Symbol"; "roe"; "roe (s)"; "Conclusion"; " pe (s) "]).
  { apply (NoDup_count_occ' string_dec). intros x Hx.
    repeat (destruct Hx as [<- | Hx]; [reflexivity |]). destruct Hx. }
  exact (proj1 (converter_keeps_the_other_columns _ Hnd)).
Defined.

(** A column whose position is not removed stands, in the filtered list,
    after the kept columns that come before it. *)
Lemma without_indices_from {A : Type} (indices : list nat) (l : list A) : forall n i,
  ~ In (n + i)%nat indices ->
  nth_error
    (map snd (filter (fun p => negb (existsb (Nat.eqb (fst p)) indices))
                     (enumerate_from n l)))
    (List.length (filter (fun k => negb (existsb (Nat.eqb k) indices)) (seq n i)))
  = nth_error l i.
Proof.
  induction l as [| x l IH]; intros n i Hi.
  - simpl. destruct i; [reflexivity |].
    now destruct (List.length _).
  - destruct i as [| i].
    + rewrite Nat.add_0_r in Hi. simpl.
      destruct (existsb (Nat.eqb n) indices) eqn:E; [| reflexivity].
      apply existsb_nat_In in E. contradiction.
    + simpl seq. simpl enumerate_from. simpl filter.
      replace (n + S i)%nat with (S n + i)%nat in Hi by lia.
      destruct (existsb (Nat.eqb n) indices); simpl; apply IH; exact Hi.
Qed.

Lemma without_indices_nth {A : Type} (indices : list nat) (l : list A) i :
  ~ In i indices ->
  nth_error (without_indices indices l) (kept_before indices i) = nth_error l i.
Proof. intros Hi. exact (without_indices_from indices l 0 i Hi). Qed.

(** X12.  When a header repeats an earlier header, the column of the later
    occurrence is never removed, even when the header ends with ["(s)"] or
    is ["Conclusion"]: its position is not among the removed positions, and
    its header and, in every row, its cell stand in the filtered lists after
    the kept columns that come before it.  [index] finds the first
    occurrence only, and it is the column of the first occurrence that is
    removed when the header is one to remove. *)
Theorem repeated_header_is_kept (headers : list string) (i j : nat) (h : string) :
  nth_error headers j = Some h -> nth_error headers i = Some h -> (j < i)%nat ->
  let indices := indices_to_remove headers in
  ~ In i indices /\
  nth_error (filtered_headers headers) (kept_before indices i) = Some h /\
  (forall row : list string,
     nth_error (without_indices indices row) (kept_before indices i) = nth_error row i) /\
  (removable_column h = true ->
   exists first,
     list_index h headers = Some first /\ (first <= j)%nat /\ In first indices /\
     forall k, In k indices -> nth_error headers k = Some h -> k = first).
Proof.
  intros Hj Hi Hlt indices.
  assert (Hnot : ~ In i indices).
  { intros Hin. apply index_to_remove in Hin as (col & _ & Hcol).
    pose proof (list_index_nth _ _ _ Hcol) as Hnth.
    assert (col = h) by congruence. subst col.
    exact (list_index_first h headers i j Hcol Hlt Hj). }
  split; [exact Hnot |]. split; [| split].
  - unfold filtered_headers. fold indices.
    now rewrite without_indices_nth.
  - intros row. now apply without_indices_nth.
  - intros Hrem.
    destruct (list_index_In h headers (nth_error_In _ _ Hj)) as [first Hfirst].
    exists first. split; [exact Hfirst |]. split; [| split].
    + destruct (Nat.le_gt_cases first j) as [Hle | Hgt]; [exact Hle |].
      exfalso. exact (list_index_first h headers first j Hfirst Hgt Hj).
    + apply index_to_remove. exists h. split; [| exact Hfirst].
      apply column_to_remove; [exact (nth_error_In _ _ Hj) | exact Hrem].
    + intros k Hk Hnth. apply index_to_remove in Hk as (col & _ & Hcol).
      pose proof (list_index_nth _ _ _ Hcol) as Hnth'.
      assert (col = h) by congruence. subst col. congruence.
Qed.

(** Two columns named ["roe (s)"]: the second one stays, with its cells. *)
Lemma repeated_header_is_kept_witness :
  let headers := ["Symbol"; "roe (s)"; "roe (s)"] in
  removable_column "roe (s)" = true /\
  In 1%nat (indices_to_remove headers) /\
  ~ In 2%nat (indices_to_remove headers) /\
  kept_before (indices_to_remove headers) 2 = 1%nat /\
  nth_error (filtered_headers headers) 1 = Some "roe (s)" /\
  nth_error (without_indices (indices_to_remove headers) ["ABC"; "1.5"; "2"]) 1
    = Some "2" /\
  convert_row parse_two_numbers headers ["ABC"; "1.5"; "2"]
    = [("Symbol", VStr "ABC"); ("roe (s)", VNum 2)].
Proof.
  intros headers.
  destruct (repeated_header_is_kept headers 2 1 "roe (s)" eq_refl eq_refl
              ltac:(lia)) as (Hnot & Hh & Hrow & _).
  split; [reflexivity |]. split; [simpl; tauto |]. split; [exact Hnot |].
  split; [reflexivity |].
  split; [exact Hh |]. split; [exact (Hrow ["ABC"; "1.5"; "2"]) | reflexivity].
Defined.

(** ** The records *)

Lemma dict_get_In_wf {V : Type} k (v : V) d :
  dict_wf d -> In (k, v) d -> dict_get k d = Some v.
Proof.
  unfold dict_wf. induction d as [| [k' v'] d IH]; simpl; [tauto |].
  intros Hwf Hin. inversion Hwf as [| ? ? Hnot Hwf']; subst.
  destruct Hin as [Heq | Hin].
  - inversion Heq; subst. now rewrite String.eqb_refl.
  - destruct (String.eqb k k') eqn:E.
    + apply String.eqb_eq in E. subst k'. exfalso. apply Hnot.
      change k with (fst (k, v)). now apply in_map.
    + now apply IH.
Qed.

(** Assigning under distinct new keys appends the entries. *)
Lemma fold_dict_set_new {V : Type} (g : nat -> V) (l : list string) : forall n acc,
  NoDup (dict_keys acc ++ l) ->
  fold_left (fun row_data p => dict_set (snd p) (g (fst p)) row_data)
    (enumerate_from n l) acc
  = acc ++ map (fun p => (snd p, g (fst p))) (enumerate_from n l).
Proof.
  induction l as [| h l IH]; intros n acc Hnd; simpl.
  - now rewrite app_nil_r.
  - assert (Hnew : dict_mem h acc = false).
    { apply dict_mem_false. intros Hin.
      apply NoDup_remove_2 in Hnd. apply Hnd. apply in_or_app. now left. }
    rewrite (dict_set_new h (g n) acc Hnew), IH.
    + now rewrite <- app_assoc.
    + unfold dict_keys in *. rewrite map_app. simpl. now rewrite <- app_assoc.
Qed.

Lemma convert_row_entries parse_float headers row :
  NoDup headers ->
  convert_row parse_float headers row =
  map (fun p => (snd p,
                 convert_cell parse_float
                   (without_indices (indices_to_remove headers) row) (fst p)))
      (enumerate (filtered_headers headers)).
Proof.
  intros Hnd. unfold convert_row, enumerate.
  rewrite fold_dict_set_new; [reflexivity |].
  simpl. rewrite (filtered_headers_NoDup headers Hnd). now apply NoDup_filter.
Qed.

(** X13.  A file without a header line stops the converter.  Otherwise,
    with distinct header names, there is one record for each data row, and
    every record has the kept headers as its keys, in their order, whatever
    the length of the row: under the [j]-th kept header it holds the [j]-th
    kept cell as a number when [float] accepts it and as the string when it
    does not, and [None] when the row is too short; cells beyond the
    headers are dropped. *)
Theorem converted_records (parse_float : string -> option float)
    (headers : list string) (rows : list (list string)) :
  NoDup headers ->
  convert_csv_to_json parse_float [] = None /\
  exists data,
    convert_csv_to_json parse_float (headers :: rows) = Some data /\
    List.length data = List.length rows /\
    forall k row,
      nth_error rows k = Some row ->
      exists record,
        nth_error data k = Some record /\
        dict_keys record = filtered_headers headers /\
        forall j h,
          nth_error (filtered_headers headers) j = Some h ->
          dict_get h record =
          Some (convert_cell parse_float
                  (without_indices (indices_to_remove headers) row) j).
Proof.
  intros Hnd. split; [reflexivity |].
  eexists. split; [reflexivity |]. split; [apply length_map |].
  intros k row Hrow. exists (convert_row parse_float headers row).
  split; [now apply map_nth_error |].
  rewrite (convert_row_entries parse_float headers row Hnd).
  assert (Hkeys : dict_keys
                    (map (fun p => (snd p,
                                    convert_cell parse_float
                                      (without_indices (indices_to_remove headers) row)
                                      (fst p)))
                         (enumerate (filtered_headers headers)))
                  = filtered_headers headers).
  { unfold dict_keys, enumerate. rewrite map_map. simpl.
    apply enumerate_from_snd. }
  split; [exact Hkeys |].
  intros j h Hj. apply dict_get_In_wf.
  - unfold dict_wf. rewrite Hkeys, (filtered_headers_NoDup headers Hnd).
    now apply NoDup_filter.
  - apply (in_map (fun p => (snd p, convert_cell parse_float _ (fst p))) _ (j, h)).
    now apply enumerate_In.
Qed.

(** A row shorter than the headers: the missing cell is [None]. *)
Lemma converted_records_witness :
  exists data record,
    convert_csv_to_json parse_two_numbers
      [ ["Symbol"; "roe"; "roe (s)"; "pe"];
        ["ABC"; "1.5"; "2"; "2"];
        ["DEF"; "x"] ] = Some data /\
    List.length data = 2%nat /\
    nth_error data 1 = Some record /\
    dict_keys record = ["Symbol"; "roe"; "pe"] /\
    dict_get "roe" record = Some (VStr "x") /\
    dict_get "pe" record = Some VNone.
Proof.
  assert (Hnd : NoDup ["Symbol"; "roe"; "roe (s)"; "pe"]).
  { apply (NoDup_count_occ' string_dec). intros x Hx.
    repeat (destruct Hx as [<- | Hx]; [reflexivity |]). destruct Hx. }
  destruct (proj2 (converted_records parse_two_numbers _
                     [ ["ABC"; "1.5"; "2"; "2"]; ["DEF"; "x"] ] Hnd))
    as (data & Hdata & Hlen & Hrec).
  destruct (Hrec 1%nat ["DEF"; "x"] eq_refl) as (record & Hnth & Hkeys & Hget).
  exists data, record. split; [exact Hdata |]. split; [exact Hlen |].
  split; [exact Hnth |]. split; [exact Hkeys |].
  split; [exact (Hget 1%nat "roe" eq_refl) | exact (Hget 2%nat "pe" eq_refl)].
Defined.

(** ** The score columns of the scanner *)

Lemma rstrip_suffixed key : rstrip (key ++ " (s)") = (key ++ " (s)")%string.
Proof.
  induction key as [| c key IH]; [reflexivity |].
  simpl. rewrite IH. destruct key; reflexivity.
Qed.

Lemma ends_with_cons suffix c rest :
  ends_with suffix (String c rest) =
  if String.eqb (String c rest) suffix then true else ends_with suffix rest.
Proof. reflexivity. Qed.

Lemma ends_with_suffixed key : ends_with "(s)" (key ++ " (s)") = true.
Proof.
  induction key as [| c key IH]; [reflexivity |].
  change (String c key ++ " (s)")%string with (String c (key ++ " (s)")).
  rewrite ends_with_cons, IH. now destruct (String.eqb _ _).
Qed.

Lemma lstrip_suffixed key : ends_with "(s)" (lstrip (key ++ " (s)")) = true.
Proof.
  induction key as [| c key IH]; [reflexivity |].
  simpl lstrip. destruct (is_space c); [exact IH |].
  apply (ends_with_suffixed (String c key)).
Qed.

Lemma removable_suffixed key : removable_column (key ++ " (s)") = true.
Proof.
  unfold removable_column, strip. rewrite rstrip_suffixed, lstrip_suffixed.
  apply orb_true_r.
Qed.

Lemma with_suffix_keys_suffixed (items : dict float) : forall (acc : dict pyval) k,
  In k (dict_keys
          (fold_left (fun acc item =>
                        dict_set (fst item ++ " (s)")%string (VNum (snd item)) acc)
                     items acc)) ->
  In k (dict_keys acc) \/ exists key, In key (dict_keys items) /\ k = (key ++ " (s)")%string.
Proof.
  induction items as [| [key v] items IH]; intros acc k; simpl; [tauto |].
  intros H. apply IH in H as [H | (key' & Hin & ->)].
  - rewrite dict_keys_set in H. destruct (dict_mem _ acc); [now left |].
    apply in_app_or in H as [H | [<- | []]]; [now left | right].
    exists key. split; [now left | reflexivity].
  - right. exists key'. split; [now right | reflexivity].
Qed.

(** X14.  Every key the callers derive from a breakdown ends with
    [" (s)"] and passes the converter's header test, so that, among
    distinct headers, no score column survives the conversion, while the
    five leading columns of the scanner and the 21 metrics named after the
    factors are kept. *)
Theorem score_columns_are_dropped (breakdown : dict float) (headers : list string) :
  NoDup headers ->
  (forall k, In k (dict_keys (with_suffix breakdown)) ->
             removable_column k = true /\ ~ In k (filtered_headers headers)) /\
  (forall h, In h (scanner_columns ++ quantitative_factors) -> In h headers ->
             In h (filtered_headers headers)).
Proof.
  intros Hnd. rewrite (filtered_headers_NoDup headers Hnd). split.
  - intros k Hk. apply with_suffix_keys_suffixed in Hk as [[] | (key & _ & ->)].
    pose proof (removable_suffixed key) as Hrem. split; [exact Hrem |].
    rewrite filter_In, Hrem. intros [_ H]. discriminate.
  - intros h Hh Hin. apply filter_In. split; [exact Hin |].
    repeat (destruct Hh as [<- | Hh]; [reflexivity |]). destruct Hh.
Qed.

Lemma score_columns_are_dropped_witness :
  let headers := ["Symbol"; "Score (%)"; "roe"; "market_cap (s)"; "roe (s)"] in
  NoDup headers /\
  ~ In "roe (s)" (filtered_headers headers) /\
  In "roe" (filtered_headers headers).
Proof.
  intros headers.
  assert (Hnd : NoDup headers).
  { apply (NoDup_count_occ' string_dec). intros x Hx.
    repeat (destruct Hx as [<- | Hx]; [reflexivity |]). destruct Hx. }
  destruct (score_columns_are_dropped (quantitative_entries []) headers Hnd)
    as [Hdrop Hkeep].
  split; [exact Hnd |]. split.
  - apply (Hdrop "roe (s)"). rewrite with_suffix_keys. simpl. tauto.
  - apply Hkeep; simpl; tauto.
Defined.
